(** * Churn decision tool: capacity targeting, ROI and profit curve

    A shallow embedding of the decision engine of the two revisions of
    [decision_tool.js]:

    - [DecisionTool]  : src/decision_tool.js   ([computePolicy], [init]);
    - [BusinessTool]  : src/unnamed/part_000   ([expectedTP], [profitFor],
      [randomStrategy], [roi], [breakEvenSaveRate], [computePrecisionRecall],
      [computeProfitCurve], [init]).

    Rendering, CSV text splitting and DOM wiring are not modelled. *)

From Stdlib Require Import ZArith QArith Qreduction List Ascii String Bool Lia Lqa.
From Stdlib Require Import Permutation Sorted.
From Equations Require Import Equations.
Import ListNotations.

Set Implicit Arguments.

(* ===================================================================== *)
(** ** JavaScript numbers *)
(* ===================================================================== *)

(** A JS Number is modelled as an exact rational extended with the three
    special values of IEEE-754.  Rounding and the sign of zero are not
    modelled: finite results are exact (and kept in lowest terms, so that
    Leibniz equality on [Fin] results is numeric equality), and a zero
    divisor is read as [+0]. *)
Inductive num : Type :=
| NaN
| PosInf
| NegInf
| Fin (q : Q).

Declare Scope num_scope.
Delimit Scope num_scope with num.
Bind Scope num_scope with num.

Definition of_Z (z : Z) : num := Fin (inject_Z z).

Definition inf_of_sign (c : comparison) : num :=
  match c with
  | Gt => PosInf
  | Lt => NegInf
  | Eq => NaN
  end.

Definition nadd (a b : num) : num :=
  match a, b with
  | NaN, _ | _, NaN => NaN
  | Fin x, Fin y => Fin (Qred (x + y))
  | PosInf, NegInf | NegInf, PosInf => NaN
  | PosInf, _ | _, PosInf => PosInf
  | NegInf, _ | _, NegInf => NegInf
  end.

Definition nsub (a b : num) : num :=
  match a, b with
  | NaN, _ | _, NaN => NaN
  | Fin x, Fin y => Fin (Qred (x - y))
  | PosInf, PosInf | NegInf, NegInf => NaN
  | PosInf, _ | _, NegInf => PosInf
  | NegInf, _ | _, PosInf => NegInf
  end.

Definition nmul (a b : num) : num :=
  match a, b with
  | NaN, _ | _, NaN => NaN
  | Fin x, Fin y => Fin (Qred (x * y))
  | Fin x, PosInf | PosInf, Fin x => inf_of_sign (x ?= 0)
  | Fin x, NegInf | NegInf, Fin x => inf_of_sign (0 ?= x)
  | PosInf, PosInf | NegInf, NegInf => PosInf
  | PosInf, NegInf | NegInf, PosInf => NegInf
  end.

Definition ndiv (a b : num) : num :=
  match a, b with
  | NaN, _ | _, NaN => NaN
  | Fin x, Fin y =>
      if Qeq_bool y 0 then inf_of_sign (x ?= 0) else Fin (Qred (x / y))
  | Fin _, _ => Fin 0
  | PosInf, Fin y => if Qle_bool 0 y then PosInf else NegInf
  | NegInf, Fin y => if Qle_bool 0 y then NegInf else PosInf
  | _, _ => NaN
  end.

(** [a <= b], [a > b] and [a === b] on numbers; every comparison with
    [NaN] is false. *)
Definition nle (a b : num) : bool :=
  match a, b with
  | NaN, _ | _, NaN => false
  | Fin x, Fin y => Qle_bool x y
  | NegInf, _ | _, PosInf => true
  | _, _ => false
  end.

Definition ngt (a b : num) : bool :=
  match a, b with
  | NaN, _ | _, NaN => false
  | Fin x, Fin y => negb (Qle_bool x y)
  | PosInf, PosInf | NegInf, NegInf => false
  | PosInf, _ | _, NegInf => true
  | _, _ => false
  end.

Definition nseq (a b : num) : bool :=
  match a, b with
  | Fin x, Fin y => Qeq_bool x y
  | PosInf, PosInf | NegInf, NegInf => true
  | _, _ => false
  end.

(** [Number.isFinite] *)
Definition isFinite (a : num) : bool :=
  match a with
  | Fin _ => true
  | _ => false
  end.

Infix "+" := nadd : num_scope.
Infix "-" := nsub : num_scope.
Infix "*" := nmul : num_scope.
Infix "/" := ndiv : num_scope.
Infix "<=?" := nle : num_scope.
Infix ">?" := ngt : num_scope.
Infix "===" := nseq (at level 70) : num_scope.

(* ===================================================================== *)
(** ** Values, the host's string conversions, and the shared helpers *)
(* ===================================================================== *)

(** The values that reach [toNumber]: a missing field, a number, or a
    string taken from a CSV cell or from a form control. *)
Inductive value : Type :=
| VUndefined
| VNum (x : num)
| VStr (s : string).

(** The built-ins of the host that the tool calls on strings:
    [Number(s)] and [s.trim()].  The only fact used about them is that the
    empty string converts to zero. *)
Class Host : Type := {
  StringToNumber : string -> num;
  StringTrim : string -> string;
  StringToNumber_empty : StringToNumber EmptyString = Fin 0
}.

(** [a ?? b] *)
Definition nullish {A : Type} (a : option A) (b : option A) : option A :=
  match a with
  | Some _ => a
  | None => b
  end.

Infix "??" := nullish (at level 60, right associativity).

Definition value_of (o : option string) : value :=
  match o with
  | Some s => VStr s
  | None => VUndefined
  end.

Definition value_of_num (o : option num) : value :=
  match o with
  | Some x => VNum x
  | None => VUndefined
  end.

(** One parsed CSV line: the object built by [parseCSV], a finite map from
    header names to trimmed cell texts. *)
Definition obj : Type := list (string * string).

Fixpoint get (o : obj) (k : string) : option string :=
  match o with
  | [] => None
  | (k', v) :: o' => if String.eqb k' k then Some v else get o' k
  end.

(** A normalised customer record, as stored in [rows]. *)
Record row : Type := mkRow {
  customer_id : string;
  churn_probability : num;
  actual_churn : option num
}.

Section Helpers.
Context {host : Host}.

(** [Number(x)] *)
Definition Number (x : value) : num :=
  match x with
  | VUndefined => NaN
  | VNum n => n
  | VStr s => StringToNumber s
  end.

(** [function toNumber(x, fallback = 0)] *)
Definition toNumber (x : value) (fallback : num) : num :=
  let n := Number x in
  if isFinite n then n else fallback.

End Helpers.

(** [function clamp(n, lo, hi)].  Capacities are the integer positions of
    the range control and [rows.length], hence [Z]. *)
Definition clamp (n lo hi : Z) : Z := Z.max lo (Z.min hi n).

(** [arr.slice(0, N)] and [arr.slice(N)] for an integer [N >= 0]. *)
Definition slice_to {A : Type} (N : Z) (l : list A) : list A :=
  firstn (Z.to_nat N) l.

Definition slice_from {A : Type} (N : Z) (l : list A) : list A :=
  skipn (Z.to_nat N) l.

(** [Array.prototype.sort(cmp)]: the language guarantees a stable sort; it
    is modelled by stable insertion.  An element moves past another one
    only when the comparator is strictly positive on them. *)
Fixpoint insert {A : Type} (cmp : A -> A -> num) (x : A) (l : list A) : list A :=
  match l with
  | [] => [x]
  | y :: l' =>
      if (cmp x y >? Fin 0)%num then y :: insert cmp x l' else x :: y :: l'
  end.

Definition sort {A : Type} (cmp : A -> A -> num) (l : list A) : list A :=
  fold_right (insert cmp) [] l.

(** [(a, b) => b.churn_probability - a.churn_probability] *)
Definition by_risk_desc (a b : row) : num :=
  (churn_probability b - churn_probability a)%num.

(** [r.actual_churn === 1] *)
Definition is_one (x : option num) : bool :=
  match x with
  | Some n => (n === Fin 1)%num
  | None => false
  end.

(** [r.actual_churn !== undefined] *)
Definition defined {A : Type} (x : option A) : bool :=
  match x with
  | Some _ => true
  | None => false
  end.

(* ===================================================================== *)
(** ** src/decision_tool.js *)
(* ===================================================================== *)

Module DecisionTool.

(** The module-level variables [rows] and [hasActual]. *)
Record state : Type := mkState {
  rows : list row;
  hasActual : bool
}.

(** The object returned by [computePolicy]. *)
Record policy : Type := mkPolicy {
  profit : num;
  contacts : Z;
  tp : num;
  fp : num;
  precision : option num;
  recall : option num;
  contacted : list row
}.

Section WithHost.
Context {host : Host}.

(** [toNumber(r.actual_churn, 0) === 1] *)
Definition label_is_one (r : row) : bool :=
  (toNumber (value_of_num (actual_churn r)) (Fin 0) === Fin 1)%num.

(** The two counting loops of [computePolicy]. *)
Definition count_totalPos (l : list row) : num :=
  fold_left (fun totalPos r =>
               if label_is_one r then (totalPos + Fin 1)%num else totalPos)
            l (Fin 0).

Definition count_tp_fp (l : list row) : num * num :=
  fold_left (fun acc r =>
               if label_is_one r
               then ((fst acc + Fin 1)%num, snd acc)
               else (fst acc, (snd acc + Fin 1)%num))
            l (Fin 0, Fin 0).

(** The local [expectedTP] of [computePolicy]: [tp], replaced by the sum
    of the probabilities when there are no labels. *)
Definition expectedTP (st : state) (contacted : list row) (tp : num) : num :=
  if negb (hasActual st)
  then fold_left
         (fun acc r => (acc + toNumber (VNum (churn_probability r)) (Fin 0))%num)
         contacted (Fin 0)
  else tp.

(** [function computePolicy(topN, contactCost, churnLoss, saveRate)] *)
Definition computePolicy (st : state) (topN : Z)
  (contactCost churnLoss saveRate : num) : policy :=
  let N := clamp topN 0 (Z.of_nat (List.length (rows st))) in
  let contacts := N in
  let contacted := slice_to N (rows st) in
  let totalPos := if hasActual st then count_totalPos (rows st) else Fin 0 in
  let tpfp := if hasActual st then count_tp_fp contacted else (Fin 0, Fin 0) in
  let tp := fst tpfp in
  let fp := snd tpfp in
  let expectedTP := expectedTP st contacted tp in
  let profit :=
    (expectedTP * (saveRate * churnLoss) - of_Z contacts * contactCost)%num in
  let precision :=
    if hasActual st
    then Some (if (tp + fp >? Fin 0)%num then (tp / (tp + fp))%num else Fin 0)
    else None in
  let recall :=
    if hasActual st
    then Some (if (totalPos >? Fin 0)%num then (tp / totalPos)%num else Fin 0)
    else None in
  mkPolicy profit contacts tp fp precision recall contacted.

(** The callback of [parsed.map] in [init]. *)
Definition normalize (r : obj) : row :=
  {| customer_id :=
       match get r "customer_id" ?? get r "Customer_ID" ?? get r "customer"
             ?? get r "id" ?? get r "row_index" with
       | Some s => s
       | None => EmptyString
       end;
     churn_probability :=
       toNumber (value_of (get r "churn_probability" ?? get r "score"
                           ?? get r "proba" ?? get r "prob")) (Fin 0);
     actual_churn :=
       match get r "actual_churn" with
       | Some s => Some (toNumber (VStr s) (Fin 0))
       | None => None
       end |}.

(** The data part of [init]: normalise, detect labels, sort. *)
Definition init (parsed : list obj) : state :=
  let rows0 := map normalize parsed in
  let hasActual := existsb (fun r => defined (actual_churn r)) rows0 in
  mkState (sort by_risk_desc rows0) hasActual.

End WithHost.
End DecisionTool.

(* ===================================================================== *)
(** ** src/unnamed/part_000 *)
(* ===================================================================== *)

Module BusinessTool.

(** The module-level variables [rows], [hasActual] and [baseRate]
    ([None] is [null]). *)
Record state : Type := mkState {
  rows : list row;
  hasActual : bool;
  baseRate : option num
}.

(** The state before [init] has run, and after a failed load. *)
Definition initial : state := mkState [] false None.

(** The object returned by [profitFor]. *)
Record evaluation : Type := mkEvaluation {
  profit : num;
  cost : num;
  tpExp : num;
  contacted : list row
}.

(** The object returned by [randomStrategy] and [doNothingStrategy]. *)
Record baseline : Type := mkBaseline {
  b_profit : num;
  b_cost : num;
  b_tpExp : num
}.

(** The object returned by [computePrecisionRecall]. *)
Record metrics : Type := mkMetrics {
  precision : option num;
  recall : option num;
  tp : option num;
  fp : option num;
  totalPos : option num
}.

(** One element of the array returned by [computeProfitCurve]. *)
Record point : Type := mkPoint {
  capacity : Z;
  p_profit : num
}.

(** [function expectedTP(contacted)] *)
Definition expectedTP (st : state) (contacted : list row) : num :=
  if hasActual st
  then fold_left
         (fun tp r => (tp + (if is_one (actual_churn r) then Fin 1 else Fin 0))%num)
         contacted (Fin 0)
  else fold_left (fun sum r => (sum + churn_probability r)%num) contacted (Fin 0).

(** [function profitFor(contactedCount, contactCost, churnLoss, saveRate)] *)
Definition profitFor (st : state) (contactedCount : Z)
  (contactCost churnLoss saveRate : num) : evaluation :=
  let N := clamp contactedCount 0 (Z.of_nat (List.length (rows st))) in
  let contacted := slice_to N (rows st) in
  let tpExp := expectedTP st contacted in
  let cost := (of_Z N * contactCost)%num in
  let profit := (tpExp * (saveRate * churnLoss) - cost)%num in
  mkEvaluation profit cost tpExp contacted.

(** [function randomStrategy(contactedCount, contactCost, churnLoss, saveRate)] *)
Definition randomStrategy (st : state) (contactedCount : Z)
  (contactCost churnLoss saveRate : num) : baseline :=
  let N := clamp contactedCount 0 (Z.of_nat (List.length (rows st))) in
  let tpExp :=
    (of_Z N * match baseRate st with Some b => b | None => Fin 0 end)%num in
  let cost := (of_Z N * contactCost)%num in
  let profit := (tpExp * (saveRate * churnLoss) - cost)%num in
  mkBaseline profit cost tpExp.

(** [function doNothingStrategy()] *)
Definition doNothingStrategy : baseline := mkBaseline (Fin 0) (Fin 0) (Fin 0).

(** [function roi(profit, cost)]; [None] is [null]. *)
Definition roi (profit cost : num) : option num :=
  if (cost <=? Fin 0)%num then None else Some (profit / cost)%num.

(** [function breakEvenSaveRate(tpExp, contacts, churnLoss, contactCost)] *)
Definition breakEvenSaveRate (tpExp : num) (contacts : Z)
  (churnLoss contactCost : num) : option num :=
  if ((tpExp <=? Fin 0) || (churnLoss <=? Fin 0))%num then None
  else
    let sr := ((of_Z contacts * contactCost) / (tpExp * churnLoss))%num in
    Some sr.

(** The loops of [computePrecisionRecall]. *)
Definition count_totalPos (l : list row) : num :=
  fold_left
    (fun totalPos r =>
       (totalPos + (if is_one (actual_churn r) then Fin 1 else Fin 0))%num)
    l (Fin 0).

Definition count_tp_fp (l : list row) : num * num :=
  fold_left (fun acc r =>
               if is_one (actual_churn r)
               then ((fst acc + Fin 1)%num, snd acc)
               else (fst acc, (snd acc + Fin 1)%num))
            l (Fin 0, Fin 0).

(** [function computePrecisionRecall(contacted)] *)
Definition computePrecisionRecall (st : state) (contacted : list row) : metrics :=
  if negb (hasActual st) then mkMetrics None None None None None
  else
    let totalPos := count_totalPos (rows st) in
    let tpfp := count_tp_fp contacted in
    let tp := fst tpfp in
    let fp := snd tpfp in
    let precision :=
      if (tp + fp >? Fin 0)%num then (tp / (tp + fp))%num else Fin 0 in
    let recall :=
      if (totalPos >? Fin 0)%num then (tp / totalPos)%num else Fin 0 in
    mkMetrics (Some precision) (Some recall) (Some tp) (Some fp) (Some totalPos).

(** [Math.max(50, Math.floor(n / steps))] with [steps = 40]. *)
Definition curve_step (n : Z) : Z := Z.max 50 (n / 40).

(** The [for (let cap = 0; cap <= n; cap += step)] loop of
    [computeProfitCurve], from the current value of [cap] on; the points are
    listed in the order in which they are pushed. *)
Equations? curve_loop (st : state) (contactCost churnLoss saveRate : num)
  (n : Z) (cap : Z) : list point by wf (Z.to_nat (n + 1 - cap)) lt :=
curve_loop st contactCost churnLoss saveRate n cap with Z_le_gt_dec cap n := {
  | left _ =>
      let res := profitFor st cap contactCost churnLoss saveRate in
      mkPoint cap (profit res)
      :: curve_loop st contactCost churnLoss saveRate n (cap + curve_step n)
  | right _ => []
  }.
Proof.
  unfold curve_step. lia.
Qed.

(** [points[points.length - 1]?.capacity] *)
Definition last_capacity (points : list point) : option Z :=
  match rev points with
  | p :: _ => Some (capacity p)
  | [] => None
  end.

(** [function computeProfitCurve(contactCost, churnLoss, saveRate)] *)
Definition computeProfitCurve (st : state)
  (contactCost churnLoss saveRate : num) : list point :=
  let n := Z.of_nat (List.length (rows st)) in
  if (n =? 0)%Z then []
  else
    let points := curve_loop st contactCost churnLoss saveRate n 0 in
    match last_capacity points with
    | Some c =>
        if (c =? n)%Z then points
        else
          let res := profitFor st n contactCost churnLoss saveRate in
          points ++ [mkPoint n (profit res)]
    | None =>
        let res := profitFor st n contactCost churnLoss saveRate in
        points ++ [mkPoint n (profit res)]
    end.

Section WithHost.
Context {host : Host}.

(** The callback of [parsed.map] in [init]; [cid || ""] is [cid], the only
    falsy text being the empty one. *)
Definition normalize (r : obj) : row :=
  let cid :=
    StringTrim
      match get r "customer_id" ?? get r "Customer_ID" ?? get r "id"
            ?? get r "row_index" with
      | Some s => s
      | None => EmptyString
      end in
  let prob :=
    toNumber (value_of (get r "churn_probability" ?? get r "score"
                        ?? get r "proba" ?? get r "prob")) (Fin 0) in
  let actualRaw := get r "actual_churn" in
  let actual :=
    match actualRaw with
    | None => None
    | Some s => if String.eqb s EmptyString then None
                else Some (toNumber (VStr s) (Fin 0))
    end in
  mkRow cid prob actual.

(** The data part of [init]: normalise, detect labels, compute the base
    rate on the rows in file order, then sort. *)
Definition init (parsed : list obj) : state :=
  let rows0 := map normalize parsed in
  let hasActual := existsb (fun r => defined (actual_churn r)) rows0 in
  let len := of_Z (Z.of_nat (List.length rows0)) in
  let baseRate :=
    if hasActual
    then
      let positives :=
        fold_left
          (fun acc r =>
             (acc + (if is_one (actual_churn r) then Fin 1 else Fin 0))%num)
          rows0 (Fin 0) in
      (positives / len)%num
    else
      (fold_left (fun acc r => (acc + churn_probability r)%num) rows0 (Fin 0)
       / len)%num in
  mkState (sort by_risk_desc rows0) hasActual (Some baseRate).

End WithHost.
End BusinessTool.

(* ===================================================================== *)
(** ** A concrete host for the examples *)
(* ===================================================================== *)

(** The examples read cells written as unsigned decimal literals
    ([digits], [digits.digits], [.digits]) and trim blanks; on those texts
    this is what [Number] and [trim] compute. *)
Module ExampleHost.

Definition digit_of (c : Ascii.ascii) : option Z :=
  let n := Z.of_nat (Ascii.nat_of_ascii c) in
  if ((48 <=? n) && (n <=? 57))%Z then Some (n - 48)%Z else None.

Fixpoint scan (s : string) (seen_dot any : bool) (numr : Z) (den : positive)
  : option Q :=
  match s with
  | EmptyString => if any then Some (numr # den) else None
  | String c s' =>
      if Ascii.eqb c "."%char
      then if seen_dot then None else scan s' true any numr den
      else
        match digit_of c with
        | Some d =>
            scan s' seen_dot true (10 * numr + d)%Z
                 (if seen_dot then (10 * den)%positive else den)
        | None => None
        end
  end.

Definition decimal (s : string) : num :=
  match s with
  | EmptyString => Fin 0
  | _ =>
      match scan s false false 0%Z 1%positive with
      | Some q => Fin (Qred q)
      | None => NaN
      end
  end.

Definition is_blank (c : Ascii.ascii) : bool :=
  let n := Ascii.nat_of_ascii c in
  (Nat.eqb n 32 || Nat.eqb n 9 || Nat.eqb n 10 || Nat.eqb n 13)%bool.

Fixpoint drop_blanks (l : list Ascii.ascii) : list Ascii.ascii :=
  match l with
  | c :: l' => if is_blank c then drop_blanks l' else l
  | [] => []
  end.

Definition trim (s : string) : string :=
  string_of_list_ascii
    (rev (drop_blanks (rev (drop_blanks (list_ascii_of_string s))))).

#[export] Instance host : Host :=
  {| StringToNumber := decimal;
     StringTrim := trim;
     StringToNumber_empty := eq_refl |}.

(** The labelled population of the specification's scenario, in file
    order [d, b, a, c], and the same population without labels. *)
Definition customer (id risk label : string) : obj :=
  [("customer_id", id); ("churn_probability", risk); ("actual_churn", label)]%string.

Definition unlabelled (id risk : string) : obj :=
  [("customer_id", id); ("churn_probability", risk)]%string.

Definition scenario : list obj :=
  [customer "d" "0.1" "0"; customer "b" "0.8" "0";
   customer "a" "0.9" "1"; customer "c" "0.3" "1"]%string.

Definition scenario_unlabelled : list obj :=
  [unlabelled "d" "0.1"; unlabelled "b" "0.8";
   unlabelled "a" "0.9"; unlabelled "c" "0.3"]%string.

(** A population whose only customer did not churn. *)
Definition loyal : list obj := [customer "a" "0.5" "0"]%string.

(** The two scenario populations, loaded. *)
Definition labelled : BusinessTool.state := BusinessTool.init scenario.

Definition plain : BusinessTool.state := BusinessTool.init scenario_unlabelled.

End ExampleHost.

(* ===================================================================== *)
(** ** Notions used to state the properties *)
(* ===================================================================== *)

(** A customer whose stored label is the number one. *)
Definition churned (r : row) : bool := is_one (actual_churn r).

(** Number of entries of [l] that satisfy [f]. *)
Definition count (f : row -> bool) (l : list row) : Z :=
  Z.of_nat (List.length (filter f l)).

(** Sum of the risk scores of [l]. *)
Definition sum_risk (l : list row) : num :=
  fold_right (fun r acc => (churn_probability r + acc)%num) (Fin 0) l.

(** Population size, as the integer [rows.length]. *)
Definition size (l : list row) : Z := Z.of_nat (List.length l).

(** [capacity] limited to [[0, n]], by cases. *)
Definition clamped (capacity n : Z) : Z :=
  if (capacity <? 0)%Z then 0%Z
  else if (n <? capacity)%Z then n
  else capacity.

(** [x] is a number of the interval [[0, 1]]. *)
Definition in_unit (x : num) : Prop :=
  (Fin 0 <=? x)%num = true /\ (x <=? Fin 1)%num = true.

(** An optional metric that is present and in [[0, 1]]. *)
Definition metric_in_unit (x : option num) : Prop :=
  match x with
  | Some a => in_unit a
  | None => False
  end.

(** [x <= y] on optional metrics that are both present. *)
Definition metric_le (x y : option num) : Prop :=
  match x, y with
  | Some a, Some b => (a <=? b)%num = true
  | _, _ => False
  end.

(** [a / b] for two counts, and zero when [b] is zero: the shape of both
    precision (true positives over contacted count) and recall (true
    positives over total positives). *)
Definition ratio_or_zero (a b : Z) : num :=
  if (0 <? b)%Z then Fin (Qred (inject_Z a / inject_Z b)) else Fin 0.

(** A number in lowest terms: adding zero leaves it unchanged. *)
Definition reduced (a : num) : Prop := (a + Fin 0)%num = a.

(** Every stored risk is a finite number, every stored label is absent or
    a finite number. *)
Definition finite_row (r : row) : Prop :=
  isFinite (churn_probability r) = true /\
  match actual_churn r with
  | Some x => isFinite x = true
  | None => True
  end.

(** [a] is ranked no later than [b]: its risk is at least that of [b]. *)
Definition risk_ge (a b : row) : Prop :=
  (churn_probability b <=? churn_probability a)%num = true.

(** The rows of [l] whose risk is the number [v], in the order of [l]. *)
Definition with_risk (v : num) (l : list row) : list row :=
  filter (fun r => (churn_probability r === v)%num) l.

(** [l] is the ranking of [l0]: same entries, risk descending, and the
    entries of each risk value in the order they have in [l0]. *)
Definition ranking_of (l0 l : list row) : Prop :=
  Permutation l0 l /\
  StronglySorted risk_ge l /\
  forall v, with_risk v l = with_risk v l0.

(** Empirical positive rate and mean risk of a population. *)
Definition positive_rate (l : list row) : num :=
  (of_Z (count churned l) / of_Z (size l))%num.

Definition mean_risk (l : list row) : num :=
  (sum_risk l / of_Z (size l))%num.

(** Strictly ascending capacities. *)
Definition ascending (caps : list Z) : Prop := StronglySorted Z.lt caps.

(** A point of the curve carries the profit of [profitFor] at its capacity. *)
Definition on_curve (st : BusinessTool.state)
  (contactCost churnLoss saveRate : num) (p : BusinessTool.point) : Prop :=
  BusinessTool.p_profit p
  = BusinessTool.profit
      (BusinessTool.profitFor st (BusinessTool.capacity p)
                              contactCost churnLoss saveRate).

(** A parsed line whose label cell is present and not empty. *)
Definition has_label (o : obj) : bool :=
  match get o "actual_churn" with
  | Some s => negb (String.eqb s EmptyString)
  | None => false
  end.

Section LabelCoercion.
Context {host : Host}.

(** The label of a parsed line after numeric coercion with fallback 0. *)
Definition coerced_label (r : obj) : num :=
  toNumber (value_of (get r "actual_churn")) (Fin 0).

Definition counts_as_churner (r : obj) : bool :=
  (coerced_label r === Fin 1)%num.

End LabelCoercion.

(* ===================================================================== *)
(** ** Text helpers of both files: [escapeHtml] and [parseCSV] *)
(* ===================================================================== *)

Module Text.

(** [s.replaceAll(c, rep)] for a pattern [c] of one character and a
    replacement without [$]. *)
Fixpoint replaceAll (c : ascii) (rep s : string) : string :=
  match s with
  | EmptyString => EmptyString
  | String a s' =>
      if Ascii.eqb a c
      then (rep ++ replaceAll c rep s')%string
      else String a (replaceAll c rep s')
  end.

(** [function escapeHtml(s)]: five replacements, in this order. *)
Definition escapeHtml (s : string) : string :=
  replaceAll "'"%char "&#039;"
    (replaceAll "034"%char "&quot;"
       (replaceAll ">"%char "&gt;"
          (replaceAll "<"%char "&lt;"
             (replaceAll "&"%char "&amp;" s)))).

(** [s.split(c)] for a separator of one character: never empty. *)
Fixpoint split_on (c : ascii) (s : string) : list string :=
  match s with
  | EmptyString => [EmptyString]
  | String a s' =>
      if Ascii.eqb a c then EmptyString :: split_on c s'
      else
        match split_on c s' with
        | cell :: cells => String a cell :: cells
        | [] => [String a EmptyString]
        end
  end.

Definition starts_with_newline (s : string) : bool :=
  match s with
  | String b _ => Ascii.eqb b "010"%char
  | EmptyString => false
  end.

(** [s.split(/\r?\n/)]: a line feed ends a line, and so does a carriage
    return immediately followed by one. *)
Fixpoint split_lines (s : string) : list string :=
  match s with
  | EmptyString => [EmptyString]
  | String a s' =>
      if Ascii.eqb a "010"%char then EmptyString :: split_lines s'
      else if (Ascii.eqb a "013"%char && starts_with_newline s')%bool
           then split_lines s'
           else
             match split_lines s' with
             | line :: lines => String a line :: lines
             | [] => [String a EmptyString]
             end
  end.

(** Creating or overwriting the own property [k]. *)
Fixpoint set_own (o : obj) (k v : string) : obj :=
  match o with
  | [] => [(k, v)]
  | (k', v') :: o' =>
      if String.eqb k' k then (k, v) :: o' else (k', v') :: set_own o' k v
  end.

(** [obj[k] = v] for a text [v] on an object literal: the name
    [__proto__] reaches the setter inherited from [Object.prototype], which
    ignores a text and stores nothing; any other name becomes an own
    property. *)
Definition set (o : obj) (k v : string) : obj :=
  if String.eqb k "__proto__" then o else set_own o k v.

Section WithHost.
Context {host : Host}.

(** The inner loop of [parseCSV]:
    [for (j = 0; j < header.length; j++) obj[header[j]] = (parts[j] ?? "").trim()]. *)
Definition record_of (header parts : list string) : obj :=
  fold_left
    (fun o j =>
       set o (nth j header EmptyString) (StringTrim (nth j parts EmptyString)))
    (seq 0 (List.length header)) [].

(** [function parseCSV(text)] *)
Definition parseCSV (text : string) : list obj :=
  let lines := split_lines (StringTrim text) in
  let header := map StringTrim (split_on ","%char (hd EmptyString lines)) in
  map (fun line => record_of header (split_on ","%char line)) (tl lines).

End WithHost.
End Text.

(* ===================================================================== *)
(** ** The numbers behind [interpretationText] (src/unnamed/part_000) *)
(* ===================================================================== *)

(** The sentences themselves are built with locale-dependent formatting
    and are not modelled; the locals they are built from are. *)
Module Narrative.

(** [const step = Math.max(200, Math.floor(rows.length / 50))] *)
Definition step (st : BusinessTool.state) : Z :=
  Z.max 200 (Z.of_nat (List.length (BusinessTool.rows st)) / 50).

(** [const here = profitFor(topN, ...)] *)
Definition here (st : BusinessTool.state) (topN : Z)
  (contactCost churnLoss saveRate : num) : BusinessTool.evaluation :=
  BusinessTool.profitFor st topN contactCost churnLoss saveRate.

(** [const next = profitFor(Math.min(rows.length, topN + step), ...)] *)
Definition next (st : BusinessTool.state) (topN : Z)
  (contactCost churnLoss saveRate : num) : BusinessTool.evaluation :=
  BusinessTool.profitFor st
    (Z.min (Z.of_nat (List.length (BusinessTool.rows st))) (topN + step st))
    contactCost churnLoss saveRate.

(** [const delta = next.profit - here.profit] *)
Definition delta (st : BusinessTool.state) (topN : Z)
  (contactCost churnLoss saveRate : num) : num :=
  (BusinessTool.profit (next st topN contactCost churnLoss saveRate)
   - BusinessTool.profit (here st topN contactCost churnLoss saveRate))%num.

(** The branch test [here.profit >= 0]. *)
Definition profitable (st : BusinessTool.state) (topN : Z)
  (contactCost churnLoss saveRate : num) : bool :=
  (Fin 0 <=? BusinessTool.profit (here st topN contactCost churnLoss saveRate))%num.

End Narrative.

(* ===================================================================== *)
(** ** Further notions *)
(* ===================================================================== *)

(** What [escapeHtml] does to one character. *)
Definition escape_char (a : ascii) : string :=
  if Ascii.eqb a "&"%char then "&amp;"
  else if Ascii.eqb a "<"%char then "&lt;"
  else if Ascii.eqb a ">"%char then "&gt;"
  else if Ascii.eqb a "034"%char then "&quot;"
  else if Ascii.eqb a "'"%char then "&#039;"
  else String a EmptyString.

Fixpoint escape_chars (s : string) : string :=
  match s with
  | EmptyString => EmptyString
  | String a s' => (escape_char a ++ escape_chars s')%string
  end.

(** The characters that are markup in HTML text and attribute values. *)
Definition markup (a : ascii) : bool :=
  (Ascii.eqb a "<"%char || Ascii.eqb a ">"%char
   || Ascii.eqb a "034"%char || Ascii.eqb a "'"%char)%bool.

Definition special (a : ascii) : bool :=
  (Ascii.eqb a "&"%char || markup a)%bool.

(** Reading the five entities back. *)
Fixpoint unescapeHtml (s : string) : string :=
  match s with
  | String "&" (String "a" (String "m" (String "p" (String ";" r)))) =>
      String "&" (unescapeHtml r)
  | String "&" (String "l" (String "t" (String ";" r))) =>
      String "<" (unescapeHtml r)
  | String "&" (String "g" (String "t" (String ";" r))) =>
      String ">" (unescapeHtml r)
  | String "&" (String "q" (String "u" (String "o" (String "t" (String ";" r))))) =>
      String "034" (unescapeHtml r)
  | String "&" (String "#" (String "0" (String "3" (String "9" (String ";" r))))) =>
      String "'" (unescapeHtml r)
  | String a r => String a (unescapeHtml r)
  | EmptyString => EmptyString
  end.

(** No character of [s] satisfies [p]. *)
Fixpoint free_of (p : ascii -> bool) (s : string) : bool :=
  match s with
  | EmptyString => true
  | String a s' => (negb (p a) && free_of p s')%bool
  end.

(** Number of occurrences of [c] in [s]. *)
Fixpoint occurrences (c : ascii) (s : string) : nat :=
  match s with
  | EmptyString => O
  | String a s' => (if Ascii.eqb a c then 1 else 0) + occurrences c s'
  end.

(** The property names that every object inherits from
    [Object.prototype]: reading one of them from a record that has no own
    property of that name does not give [undefined]. *)
Definition object_prototype_names : list string :=
  ["__proto__"; "constructor"; "hasOwnProperty"; "isPrototypeOf";
   "propertyIsEnumerable"; "toLocaleString"; "toString"; "valueOf";
   "__defineGetter__"; "__defineSetter__"; "__lookupGetter__";
   "__lookupSetter__"]%string.

(** The column that a record keeps for the name [k] among the first [m]
    columns of [header]: the last one with that name. *)
Fixpoint find_last (k : string) (header : list string) (m : nat) : option nat :=
  match m with
  | O => None
  | S m' =>
      if String.eqb (nth m' header EmptyString) k then Some m'
      else find_last k header m'
  end.

(* ===================================================================== *)
(** ** Arithmetic of the number model *)
(* ===================================================================== *)

Section NumFacts.

Local Open Scope Q_scope.

Lemma Qred_inject_Z (z : Z) : Qred (inject_Z z) = inject_Z z.
Proof.
  unfold Qred, inject_Z.
  generalize (Z.ggcd_gcd z 1) (Z.ggcd_correct_divisors z 1).
  destruct (Z.ggcd z 1) as [g [r1 r2]]; simpl.
  rewrite Z.gcd_1_r. intros -> [H1 H2].
  rewrite Z.mul_1_l in H1, H2. subst. reflexivity.
Qed.

Lemma Fin_Qred_eq (x y : Q) : x == y -> Fin (Qred x) = Fin (Qred y).
Proof. intros H. f_equal. now apply Qred_complete. Qed.

Lemma Fin_Qred_of_Z (x : Q) (z : Z) : x == inject_Z z -> Fin (Qred x) = of_Z z.
Proof.
  intros H. unfold of_Z. rewrite <- (Qred_inject_Z z). now apply Fin_Qred_eq.
Qed.

Lemma of_Z_add (a b : Z) : (of_Z a + of_Z b)%num = of_Z (a + b).
Proof.
  unfold of_Z, nadd. apply Fin_Qred_of_Z. now rewrite inject_Z_plus.
Qed.

Lemma of_Z_add_one (a : Z) : (of_Z a + Fin 1)%num = of_Z (a + 1).
Proof. exact (of_Z_add a 1). Qed.

Lemma of_Z_add_zero (a : Z) : (of_Z a + Fin 0)%num = of_Z a.
Proof. rewrite <- (Z.add_0_r a) at 2. exact (of_Z_add a 0). Qed.

Lemma nadd_comm (a b : num) : (a + b)%num = (b + a)%num.
Proof.
  destruct a, b; unfold nadd; try reflexivity.
  apply Fin_Qred_eq. ring.
Qed.

Lemma nadd_assoc (a b c : num) : (a + (b + c))%num = ((a + b) + c)%num.
Proof.
  destruct a, b, c; unfold nadd; try reflexivity.
  apply Fin_Qred_eq. rewrite !Qred_correct. ring.
Qed.

Lemma nle_Fin (x y : Q) : (Fin x <=? Fin y)%num = true <-> x <= y.
Proof. unfold nle. apply Qle_bool_iff. Qed.

Lemma ngt_Fin (x y : Q) : (Fin x >? Fin y)%num = true <-> y < x.
Proof.
  unfold ngt. rewrite negb_true_iff. split; intros H.
  - apply Qnot_le_lt. intros Hle. apply Qle_bool_iff in Hle. congruence.
  - destruct (Qle_bool x y) eqn:E; [|reflexivity].
    apply Qle_bool_iff in E. exfalso. now apply (Qlt_not_le _ _ H).
Qed.

Lemma ngt_Fin_false (x y : Q) : (Fin x >? Fin y)%num = false <-> x <= y.
Proof.
  unfold ngt. rewrite negb_false_iff. apply Qle_bool_iff.
Qed.

Lemma nseq_Fin (x y : Q) : (Fin x === Fin y)%num = true <-> x == y.
Proof. unfold nseq. apply Qeq_bool_iff. Qed.

Lemma ngt_of_Z_0 (z : Z) : (of_Z z >? Fin 0)%num = (0 <? z)%Z.
Proof.
  unfold of_Z. destruct (0 <? z)%Z eqn:E.
  - apply ngt_Fin. apply Z.ltb_lt in E.
    change 0 with (inject_Z 0). now rewrite <- Zlt_Qlt.
  - apply ngt_Fin_false. apply Z.ltb_ge in E.
    change 0 with (inject_Z 0). now rewrite <- Zle_Qle.
Qed.

(** Division of two counts. *)
Lemma ndiv_of_Z_pos (a b : Z) :
  (0 < b)%Z -> (of_Z a / of_Z b)%num = Fin (Qred (inject_Z a / inject_Z b)).
Proof.
  intros Hb. unfold of_Z, ndiv.
  destruct (Qeq_bool (inject_Z b) 0) eqn:E; [|reflexivity].
  apply Qeq_bool_iff in E. exfalso.
  apply (proj1 (inject_Z_injective b 0)) in E. lia.
Qed.

Lemma ndiv_of_Z_self (a : Z) : (0 < a)%Z -> (of_Z a / of_Z a)%num = Fin 1.
Proof.
  intros Ha. rewrite ndiv_of_Z_pos by assumption.
  change (Fin 1) with (of_Z 1). apply Fin_Qred_of_Z.
  assert (~ inject_Z a == 0).
  { intros E. apply (proj1 (inject_Z_injective a 0)) in E. lia. }
  change (inject_Z 1) with 1. now field.
Qed.

Lemma Qdiv_counts_le (a b c : Z) :
  (a <= b)%Z -> (0 < c)%Z -> inject_Z a / inject_Z c <= inject_Z b / inject_Z c.
Proof.
  intros Hab Hc.
  assert (0 < inject_Z c).
  { change 0 with (inject_Z 0). now rewrite <- Zlt_Qlt. }
  apply Qmult_le_compat_r.
  - now rewrite <- Zle_Qle.
  - apply Qlt_le_weak. now apply Qinv_lt_0_compat.
Qed.

Lemma Qdiv_counts_unit (a c : Z) :
  (0 <= a <= c)%Z -> (0 < c)%Z ->
  0 <= inject_Z a / inject_Z c /\ inject_Z a / inject_Z c <= 1.
Proof.
  intros [H0 Hac] Hc.
  assert (Hc' : 0 < inject_Z c).
  { change 0 with (inject_Z 0). now rewrite <- Zlt_Qlt. }
  split.
  - apply Qle_shift_div_l; [assumption|]. rewrite Qmult_0_l.
    change 0 with (inject_Z 0). now rewrite <- Zle_Qle.
  - apply Qle_shift_div_r; [assumption|]. rewrite Qmult_1_l.
    now rewrite <- Zle_Qle.
Qed.

End NumFacts.

(* ===================================================================== *)
(** ** Counting and summing loops *)
(* ===================================================================== *)

Section Loops.

Variable f : row -> bool.

Lemma count_cons (r : row) (l : list row) :
  count f (r :: l) = ((if f r then 1 else 0) + count f l)%Z.
Proof.
  unfold count; simpl. destruct (f r); simpl List.length; lia.
Qed.

Lemma count_nonneg (l : list row) : (0 <= count f l)%Z.
Proof. unfold count. lia. Qed.

Lemma count_le_size (l : list row) : (count f l <= size l)%Z.
Proof.
  unfold count, size. pose proof (filter_length_le f l). lia.
Qed.

Lemma count_app (l1 l2 : list row) :
  count f (l1 ++ l2) = (count f l1 + count f l2)%Z.
Proof.
  unfold count. rewrite filter_app, length_app. lia.
Qed.

Lemma count_firstn_le (k : nat) (l : list row) :
  (count f (firstn k l) <= count f l)%Z.
Proof.
  rewrite <- (firstn_skipn k l) at 2. rewrite count_app.
  pose proof (count_nonneg (skipn k l)). lia.
Qed.

Lemma count_firstn_mono (j k : nat) (l : list row) :
  (j <= k)%nat -> (count f (firstn j l) <= count f (firstn k l))%Z.
Proof.
  intros Hjk.
  replace (firstn j l) with (firstn j (firstn k l)).
  - apply count_firstn_le.
  - rewrite firstn_firstn. f_equal. lia.
Qed.

(** [tp += (p(r) ? 1 : 0)] over a list. *)
Lemma fold_count_add (l : list row) (k : Z) :
  fold_left (fun acc r => (acc + (if f r then Fin 1 else Fin 0))%num) l (of_Z k)
  = of_Z (k + count f l).
Proof.
  revert k. induction l as [|r l IH]; intros k.
  - simpl. unfold count; simpl. now rewrite Z.add_0_r.
  - cbn [fold_left]. rewrite count_cons. destruct (f r).
    + rewrite of_Z_add_one, IH. f_equal. lia.
    + rewrite of_Z_add_zero, IH. f_equal.
Qed.

(** [if (p(r)) totalPos += 1] over a list. *)
Lemma fold_count_if (l : list row) (k : Z) :
  fold_left (fun acc r => if f r then (acc + Fin 1)%num else acc) l (of_Z k)
  = of_Z (k + count f l).
Proof.
  revert k. induction l as [|r l IH]; intros k.
  - simpl. unfold count; simpl. now rewrite Z.add_0_r.
  - cbn [fold_left]. rewrite count_cons. destruct (f r).
    + rewrite of_Z_add_one, IH. f_equal. lia.
    + rewrite IH. f_equal.
Qed.

(** [if (p(r)) tp += 1; else fp += 1] over a list. *)
Lemma fold_count_pair (l : list row) (a b : Z) :
  fold_left (fun acc r =>
               if f r
               then ((fst acc + Fin 1)%num, snd acc)
               else (fst acc, (snd acc + Fin 1)%num))
            l (of_Z a, of_Z b)
  = (of_Z (a + count f l), of_Z (b + (size l - count f l))).
Proof.
  revert a b. induction l as [|r l IH]; intros a b.
  - simpl. unfold count, size; simpl. now rewrite !Z.add_0_r.
  - cbn [fold_left]. rewrite count_cons.
    replace (size (r :: l)) with (1 + size l)%Z
      by (unfold size; simpl List.length; lia).
    destruct (f r); cbn [fst snd]; rewrite of_Z_add_one, IH; f_equal; f_equal; lia.
Qed.

End Loops.

Lemma count_ext (f g : row -> bool) (l : list row) :
  (forall r, f r = g r) -> count f l = count g l.
Proof.
  intros H. unfold count. now rewrite (filter_ext f g H).
Qed.

Lemma count_all (l : list row) : count (fun _ => true) l = size l.
Proof.
  unfold count, size. f_equal. induction l; simpl; congruence.
Qed.

Section Sums.

Lemma reduced_nadd (a b : num) : reduced (a + b)%num.
Proof.
  unfold reduced. destruct a, b; unfold nadd; try reflexivity.
  apply Fin_Qred_eq. rewrite Qred_correct. ring.
Qed.

Lemma reduced_zero : reduced (Fin 0).
Proof. reflexivity. Qed.

Lemma reduced_sum_risk (l : list row) : reduced (sum_risk l).
Proof.
  destruct l; simpl; [apply reduced_zero | apply reduced_nadd].
Qed.

Lemma fold_sum_from (g : row -> num) (l : list row) (a : num) :
  reduced a ->
  fold_left (fun acc r => (acc + g r)%num) l a
  = (a + fold_right (fun r acc => (g r + acc)%num) (Fin 0) l)%num.
Proof.
  revert a. induction l as [|r l IH]; intros a Ha.
  - simpl. symmetry. exact Ha.
  - cbn [fold_left fold_right]. rewrite IH by apply reduced_nadd.
    now rewrite nadd_assoc.
Qed.

(** [for (const r of contacted) sum += r.churn_probability] *)
Lemma fold_sum_risk (l : list row) :
  fold_left (fun acc r => (acc + churn_probability r)%num) l (Fin 0) = sum_risk l.
Proof.
  rewrite fold_sum_from by apply reduced_zero.
  fold (sum_risk l). rewrite nadd_comm. apply reduced_sum_risk.
Qed.

Lemma sum_risk_perm (l l' : list row) :
  Permutation l l' -> sum_risk l = sum_risk l'.
Proof.
  induction 1 as [|x l l' _ IH|x y l|l l' l'' _ IH1 _ IH2]; simpl.
  - reflexivity.
  - now rewrite IH.
  - rewrite !nadd_assoc. f_equal. apply nadd_comm.
  - congruence.
Qed.

Lemma count_perm (f : row -> bool) (l l' : list row) :
  Permutation l l' -> count f l = count f l'.
Proof.
  intros H. unfold count. f_equal. apply Permutation_length.
  induction H as [|x l l' _ IH|x y l|l l' l'' _ IH1 _ IH2]; simpl.
  - constructor.
  - destruct (f x); [now constructor | assumption].
  - destruct (f x), (f y); try reflexivity. constructor.
  - now transitivity (filter f l').
Qed.

End Sums.

Section Slices.

Lemma clamp_clamped (capacity n : Z) :
  (0 <= n)%Z -> clamp capacity 0 n = clamped capacity n.
Proof.
  intros Hn. unfold clamp, clamped.
  destruct (capacity <? 0)%Z eqn:E1; [apply Z.ltb_lt in E1; lia|].
  apply Z.ltb_ge in E1.
  destruct (n <? capacity)%Z eqn:E2;
    [apply Z.ltb_lt in E2 | apply Z.ltb_ge in E2]; lia.
Qed.

Lemma clamp_range (capacity n : Z) :
  (0 <= n)%Z -> (0 <= clamp capacity 0 n <= n)%Z.
Proof. unfold clamp. lia. Qed.

Lemma clamp_mono (c1 c2 n : Z) :
  (c1 <= c2)%Z -> (clamp c1 0 n <= clamp c2 0 n)%Z.
Proof. unfold clamp. lia. Qed.

Lemma clamp_full (n : Z) : (0 <= n)%Z -> clamp n 0 n = n.
Proof. unfold clamp. lia. Qed.

Lemma size_nonneg (l : list row) : (0 <= size l)%Z.
Proof. unfold size. lia. Qed.

Lemma slice_to_length (N : Z) (l : list row) :
  (0 <= N <= size l)%Z -> size (slice_to N l) = N.
Proof.
  intros H. unfold size, slice_to in *. rewrite length_firstn. lia.
Qed.

Lemma slice_to_full (l : list row) : slice_to (size l) l = l.
Proof.
  unfold slice_to, size. rewrite Nat2Z.id. apply firstn_all.
Qed.

End Slices.

(* ===================================================================== *)
(** ** The ranking built by [rows.sort] *)
(* ===================================================================== *)

Section Ranking.

Lemma nle_trans (a b c : num) :
  (a <=? b)%num = true -> (b <=? c)%num = true -> (a <=? c)%num = true.
Proof.
  destruct a, b, c; unfold nle; try congruence.
  rewrite !Qle_bool_iff. apply Qle_trans.
Qed.

Lemma nle_refl_finite (a : num) : isFinite a = true -> (a <=? a)%num = true.
Proof.
  destruct a; simpl; try discriminate. intros _. apply Qle_bool_iff, Qle_refl.
Qed.

Lemma nseq_refl_finite (a : num) : isFinite a = true -> (a === a)%num = true.
Proof.
  destruct a; simpl; try discriminate. intros _. apply Qeq_bool_iff, Qeq_refl.
Qed.

Lemma nseq_nle (a b : num) : (a === b)%num = true -> (a <=? b)%num = true.
Proof.
  destruct a, b; unfold nseq, nle; try congruence.
  rewrite Qeq_bool_iff, Qle_bool_iff. intros ->. apply Qle_refl.
Qed.

Lemma nseq_sym (a b : num) : (a === b)%num = (b === a)%num.
Proof.
  destruct a, b; unfold nseq; try reflexivity.
  destruct (Qeq_bool q q0) eqn:E1, (Qeq_bool q0 q) eqn:E2; try reflexivity.
  - apply Qeq_bool_iff in E1. apply Qeq_bool_neq in E2. now symmetry in E1.
  - apply Qeq_bool_iff in E2. apply Qeq_bool_neq in E1. now symmetry in E2.
Qed.

Lemma nseq_trans (a b c : num) :
  (a === b)%num = true -> (b === c)%num = true -> (a === c)%num = true.
Proof.
  destruct a, b, c; unfold nseq; try congruence.
  rewrite !Qeq_bool_iff. apply Qeq_trans.
Qed.

Lemma nle_antisym (a b : num) :
  (a <=? b)%num = true -> (b <=? a)%num = true -> (a === b)%num = true.
Proof.
  destruct a, b; unfold nle, nseq; try congruence.
  rewrite !Qle_bool_iff, Qeq_bool_iff. apply Qle_antisym.
Qed.

(** What the comparator decides, on any two risks. *)
Lemma comparator_positive (x y v : num) :
  ((y - x) >? Fin 0)%num = true ->
  (x === v)%num = true -> (y === v)%num = false.
Proof.
  destruct x as [| | |qx], y as [| | |qy], v as [| | |qv];
    unfold nsub, ngt, nseq; try congruence.
  rewrite negb_true_iff, Qeq_bool_iff. intros Hgt Hx.
  destruct (Qeq_bool qy qv) eqn:E; [|reflexivity].
  apply Qeq_bool_iff in E. exfalso.
  assert (Hle : Qred (qy - qx) <= 0).
  { rewrite Qred_correct, E, Hx. unfold Qminus. rewrite Qplus_opp_r. apply Qle_refl. }
  apply Qle_bool_iff in Hle. congruence.
Qed.

Lemma comparator_finite (x y : row) :
  finite_row x -> finite_row y ->
  if (by_risk_desc x y >? Fin 0)%num
  then risk_ge y x
  else risk_ge x y.
Proof.
  intros [Hx _] [Hy _]. unfold by_risk_desc, risk_ge.
  destruct (churn_probability x) as [| | |qx]; try discriminate.
  destruct (churn_probability y) as [| | |qy]; try discriminate.
  unfold nsub, ngt, nle.
  destruct (Qle_bool (Qred (qy - qx)) 0) eqn:E; cbn [negb].
  - apply Qle_bool_iff in E. rewrite Qred_correct in E.
    apply Qle_bool_iff. lra.
  - apply Qle_bool_iff. destruct (Qlt_le_dec qx qy) as [H|H]; [lra|].
    exfalso. assert (Hle : Qred (qy - qx) <= 0) by (rewrite Qred_correct; lra).
    apply Qle_bool_iff in Hle. congruence.
Qed.

Lemma insert_perm (x : row) (l : list row) :
  Permutation (x :: l) (insert by_risk_desc x l).
Proof.
  induction l as [|y l IH]; simpl.
  - reflexivity.
  - destruct (by_risk_desc x y >? Fin 0)%num.
    + rewrite perm_swap. now constructor.
    + reflexivity.
Qed.

Lemma sort_perm (l : list row) : Permutation l (sort by_risk_desc l).
Proof.
  induction l as [|x l IH]; simpl.
  - constructor.
  - rewrite <- insert_perm. now constructor.
Qed.

Lemma insert_sorted (x : row) (l : list row) :
  finite_row x -> Forall finite_row l ->
  StronglySorted risk_ge l ->
  StronglySorted risk_ge (insert by_risk_desc x l).
Proof.
  intros Hx Hl Hs. induction Hs as [|y l Hs IH Hy]; simpl.
  - repeat constructor.
  - inversion Hl as [|? ? Hfy Hfl]; subst.
    pose proof (comparator_finite Hx Hfy) as Hc.
    destruct (by_risk_desc x y >? Fin 0)%num.
    + constructor; [now apply IH|].
      apply (Permutation_Forall (insert_perm x l)). now constructor.
    + constructor; [now constructor|].
      constructor; [assumption|].
      apply Forall_impl with (P := risk_ge y); [|assumption].
      intros z Hz. unfold risk_ge in *. now apply nle_trans with (churn_probability y).
Qed.

Lemma sort_sorted (l : list row) :
  Forall finite_row l -> StronglySorted risk_ge (sort by_risk_desc l).
Proof.
  induction 1 as [|x l Hx Hl IH]; simpl.
  - constructor.
  - apply insert_sorted; try assumption.
    apply (Permutation_Forall (sort_perm l)). assumption.
Qed.

Lemma insert_stable (v : num) (x : row) (l : list row) :
  with_risk v (insert by_risk_desc x l) = with_risk v (x :: l).
Proof.
  induction l as [|y l IH]; [reflexivity|].
  cbn [insert]. destruct (by_risk_desc x y >? Fin 0)%num eqn:E; [|reflexivity].
  unfold with_risk in *. cbn [filter] in *. rewrite IH.
  destruct (churn_probability x === v)%num eqn:Ex; [|reflexivity].
  now rewrite (comparator_positive _ _ _ E Ex).
Qed.

Lemma sort_stable (v : num) (l : list row) :
  with_risk v (sort by_risk_desc l) = with_risk v l.
Proof.
  induction l as [|x l IH]; [reflexivity|].
  cbn [sort fold_right]. fold (sort by_risk_desc l).
  rewrite insert_stable. unfold with_risk in *. cbn [filter]. now rewrite IH.
Qed.

Lemma sort_ranking (l : list row) :
  Forall finite_row l -> ranking_of l (sort by_risk_desc l).
Proof.
  intros H. repeat split.
  - apply sort_perm.
  - now apply sort_sorted.
  - intros v. apply sort_stable.
Qed.

(** A ranked list is determined by its classes of equal risk. *)
Lemma with_risk_head (x : row) (l : list row) :
  finite_row x ->
  with_risk (churn_probability x) (x :: l)
  = x :: with_risk (churn_probability x) l.
Proof.
  intros [Hx _]. unfold with_risk. cbn [filter].
  now rewrite nseq_refl_finite.
Qed.

Lemma with_risk_In (v : num) (z : row) (l : list row) :
  In z (with_risk v l) -> In z l /\ (churn_probability z === v)%num = true.
Proof. unfold with_risk. apply filter_In. Qed.

Lemma ranked_same_classes (l1 l2 : list row) :
  Forall finite_row l1 -> Forall finite_row l2 ->
  StronglySorted risk_ge l1 -> StronglySorted risk_ge l2 ->
  (forall v, with_risk v l1 = with_risk v l2) ->
  l1 = l2.
Proof.
  revert l2. induction l1 as [|x l1 IH]; intros [|y l2] F1 F2 S1 S2 H.
  - reflexivity.
  - inversion F2 as [|? ? Fy _]; subst.
    specialize (H (churn_probability y)). rewrite with_risk_head in H by assumption.
    discriminate.
  - inversion F1 as [|? ? Fx _]; subst.
    specialize (H (churn_probability x)). rewrite with_risk_head in H by assumption.
    discriminate.
  - inversion F1 as [|? ? Fx F1']; inversion F2 as [|? ? Fy F2']; subst.
    inversion S1 as [|? ? S1' Hx]; inversion S2 as [|? ? S2' Hy]; subst.
    assert (Hyx : risk_ge y x).
    { assert (Hin : In x (with_risk (churn_probability x) (y :: l2))).
      { rewrite <- H, with_risk_head by assumption. now left. }
      apply with_risk_In in Hin. destruct Hin as [[->|Hin] _].
      - unfold risk_ge. apply nle_refl_finite, Fx.
      - rewrite Forall_forall in Hy. now apply Hy. }
    assert (Hxy : risk_ge x y).
    { assert (Hin : In y (with_risk (churn_probability y) (x :: l1))).
      { rewrite H, with_risk_head by assumption. now left. }
      apply with_risk_In in Hin. destruct Hin as [[->|Hin] _].
      - unfold risk_ge. apply nle_refl_finite, Fy.
      - rewrite Forall_forall in Hx. now apply Hx. }
    assert (Heq : (churn_probability y === churn_probability x)%num = true)
      by (apply nle_antisym; assumption).
    assert (x = y).
    { pose proof (H (churn_probability x)) as Hv.
      rewrite with_risk_head in Hv by assumption.
      unfold with_risk in Hv. cbn [filter] in Hv. rewrite Heq in Hv. congruence. }
    subst y. f_equal. apply IH; try assumption.
    intros v. specialize (H v). unfold with_risk in *. cbn [filter] in H.
    destruct (churn_probability x === v)%num; congruence.
Qed.

Lemma ranking_unique (l0 l1 l2 : list row) :
  Forall finite_row l0 -> ranking_of l0 l1 -> ranking_of l0 l2 -> l1 = l2.
Proof.
  intros F (P1 & S1 & C1) (P2 & S2 & C2).
  apply ranked_same_classes; try assumption.
  - apply (Permutation_Forall P1 F).
  - apply (Permutation_Forall P2 F).
  - intros v. now rewrite C1, C2.
Qed.

End Ranking.

(* ===================================================================== *)
(** ** Loading: what [init] stores *)
(* ===================================================================== *)

Section Loading.
Context {host : Host}.

Lemma toNumber_finite (x : value) (fallback : num) :
  isFinite fallback = true -> isFinite (toNumber x fallback) = true.
Proof.
  intros H. unfold toNumber. now destruct (isFinite (Number x)) eqn:E.
Qed.

Lemma toNumber_of_finite (n fallback : num) :
  isFinite n = true -> toNumber (VNum n) fallback = n.
Proof.
  intros H. unfold toNumber. simpl. now rewrite H.
Qed.

Lemma toNumber_is_one (n : option num) :
  (toNumber (value_of_num n) (Fin 0) === Fin 1)%num = is_one n.
Proof.
  destruct n as [[| | |q]|]; reflexivity.
Qed.

Lemma label_is_one_churned (r : row) : DecisionTool.label_is_one r = churned r.
Proof. apply toNumber_is_one. Qed.

Lemma decision_normalize_finite (r : obj) : finite_row (DecisionTool.normalize r).
Proof.
  split; cbn [DecisionTool.normalize churn_probability actual_churn].
  - now apply toNumber_finite.
  - destruct (get r "actual_churn"); [now apply toNumber_finite | exact I].
Qed.

Lemma business_normalize_finite (r : obj) : finite_row (BusinessTool.normalize r).
Proof.
  split; cbn [BusinessTool.normalize churn_probability actual_churn].
  - now apply toNumber_finite.
  - destruct (get r "actual_churn") as [s|]; [|exact I].
    destruct (String.eqb s ""); [exact I | now apply toNumber_finite].
Qed.

Lemma decision_rows0_finite (parsed : list obj) :
  Forall finite_row (map DecisionTool.normalize parsed).
Proof.
  apply Forall_forall. intros r Hr. apply in_map_iff in Hr.
  destruct Hr as (o & <- & _). apply decision_normalize_finite.
Qed.

Lemma business_rows0_finite (parsed : list obj) :
  Forall finite_row (map BusinessTool.normalize parsed).
Proof.
  apply Forall_forall. intros r Hr. apply in_map_iff in Hr.
  destruct Hr as (o & <- & _). apply business_normalize_finite.
Qed.

Lemma decision_init_finite (parsed : list obj) :
  Forall finite_row (DecisionTool.rows (DecisionTool.init parsed)).
Proof.
  apply (Permutation_Forall (sort_perm _)), decision_rows0_finite.
Qed.

Lemma business_init_finite (parsed : list obj) :
  Forall finite_row (BusinessTool.rows (BusinessTool.init parsed)).
Proof.
  apply (Permutation_Forall (sort_perm _)), business_rows0_finite.
Qed.

Lemma size_perm (l l' : list row) : Permutation l l' -> size l = size l'.
Proof. intros H. unfold size. now rewrite (Permutation_length H). Qed.

(** On finite risks, [toNumber(r.churn_probability, 0)] is the risk. *)
Lemma fold_sum_toNumber (l : list row) :
  Forall finite_row l ->
  fold_left
    (fun acc r => (acc + toNumber (VNum (churn_probability r)) (Fin 0))%num)
    l (Fin 0)
  = sum_risk l.
Proof.
  intros H. rewrite fold_sum_from by apply reduced_zero.
  replace (fold_right _ _ l) with (sum_risk l).
  - rewrite nadd_comm. apply reduced_sum_risk.
  - induction H as [|r l [Hr _] _ IH]; simpl; [reflexivity|].
    rewrite toNumber_of_finite by assumption. now rewrite IH.
Qed.

End Loading.

Lemma Forall_firstn (P : row -> Prop) (k : nat) (l : list row) :
  Forall P l -> Forall P (firstn k l).
Proof.
  intros H. rewrite <- (firstn_skipn k l) in H.
  now apply Forall_app in H.
Qed.

(* ===================================================================== *)
(** ** Policy evaluation *)
(* ===================================================================== *)

Section Evaluation.
Context {host : Host}.

Lemma business_tp_count (bst : BusinessTool.state) (l : list row) :
  BusinessTool.hasActual bst = true ->
  BusinessTool.expectedTP bst l = of_Z (count churned l).
Proof.
  intros H. unfold BusinessTool.expectedTP. rewrite H.
  change (Fin 0) with (of_Z 0) at 2.
  now rewrite (fold_count_add churned).
Qed.

Lemma business_tp_sum (bst : BusinessTool.state) (l : list row) :
  BusinessTool.hasActual bst = false ->
  BusinessTool.expectedTP bst l = sum_risk l.
Proof.
  intros H. unfold BusinessTool.expectedTP. rewrite H. apply fold_sum_risk.
Qed.

Lemma business_counts (l : list row) :
  BusinessTool.count_tp_fp l
  = (of_Z (count churned l), of_Z (size l - count churned l)).
Proof.
  unfold BusinessTool.count_tp_fp. change (Fin 0) with (of_Z 0).
  now rewrite (fold_count_pair churned).
Qed.

Lemma business_totalPos (l : list row) :
  BusinessTool.count_totalPos l = of_Z (count churned l).
Proof.
  unfold BusinessTool.count_totalPos. change (Fin 0) with (of_Z 0) at 2.
  now rewrite (fold_count_add churned).
Qed.

Lemma decision_counts (l : list row) :
  DecisionTool.count_tp_fp l
  = (of_Z (count churned l), of_Z (size l - count churned l)).
Proof.
  unfold DecisionTool.count_tp_fp. change (Fin 0) with (of_Z 0).
  rewrite (fold_count_pair DecisionTool.label_is_one).
  now rewrite (count_ext _ _ l label_is_one_churned).
Qed.

Lemma decision_totalPos (l : list row) :
  DecisionTool.count_totalPos l = of_Z (count churned l).
Proof.
  unfold DecisionTool.count_totalPos. change (Fin 0) with (of_Z 0).
  rewrite (fold_count_if DecisionTool.label_is_one).
  now rewrite (count_ext _ _ l label_is_one_churned).
Qed.

Lemma business_contacted (bst : BusinessTool.state) (capacity : Z)
  (contactCost churnLoss saveRate : num) :
  BusinessTool.contacted
    (BusinessTool.profitFor bst capacity contactCost churnLoss saveRate)
  = slice_to (clamped capacity (size (BusinessTool.rows bst)))
             (BusinessTool.rows bst).
Proof.
  cbn [BusinessTool.profitFor BusinessTool.contacted].
  fold (size (BusinessTool.rows bst)).
  now rewrite clamp_clamped by apply size_nonneg.
Qed.

Lemma decision_contacted (dst : DecisionTool.state) (capacity : Z)
  (contactCost churnLoss saveRate : num) :
  DecisionTool.contacted
    (DecisionTool.computePolicy dst capacity contactCost churnLoss saveRate)
  = slice_to (clamped capacity (size (DecisionTool.rows dst)))
             (DecisionTool.rows dst).
Proof.
  cbn [DecisionTool.computePolicy DecisionTool.contacted].
  fold (size (DecisionTool.rows dst)).
  now rewrite clamp_clamped by apply size_nonneg.
Qed.

Lemma clamped_range (capacity n : Z) :
  (0 <= n)%Z -> (0 <= clamped capacity n <= n)%Z.
Proof.
  intros H. rewrite <- clamp_clamped by assumption. now apply clamp_range.
Qed.

End Evaluation.

(** C1. For every population and every requested capacity, both revisions
    first limit the capacity to [[0, population size]]; the contacted slice
    is the prefix of the ranked population of that (limited) length; the
    cost is the limited capacity times [contactCost]; and the profit is
    [expectedTruePositives * (saveRate * churnLoss) - cost]. *)
Theorem evaluate_clamps_slices_and_prices :
  forall (host : Host) (bst : BusinessTool.state) (dst : DecisionTool.state)
         (capacity : Z) (contactCost churnLoss saveRate : num),
    let e := BusinessTool.profitFor bst capacity contactCost churnLoss saveRate in
    let N := clamped capacity (size (BusinessTool.rows bst)) in
    let p := DecisionTool.computePolicy dst capacity contactCost churnLoss saveRate in
    let M := clamped capacity (size (DecisionTool.rows dst)) in
    ((0 <= N <= size (BusinessTool.rows bst))%Z /\
     BusinessTool.contacted e = firstn (Z.to_nat N) (BusinessTool.rows bst) /\
     size (BusinessTool.contacted e) = N /\
     BusinessTool.tpExp e = BusinessTool.expectedTP bst (BusinessTool.contacted e) /\
     BusinessTool.cost e = (of_Z N * contactCost)%num /\
     BusinessTool.profit e
     = (BusinessTool.tpExp e * (saveRate * churnLoss) - BusinessTool.cost e)%num)
    /\
    ((0 <= M <= size (DecisionTool.rows dst))%Z /\
     DecisionTool.contacts p = M /\
     DecisionTool.contacted p = firstn (Z.to_nat M) (DecisionTool.rows dst) /\
     size (DecisionTool.contacted p) = M /\
     DecisionTool.profit p
     = (DecisionTool.expectedTP dst (DecisionTool.contacted p) (DecisionTool.tp p)
        * (saveRate * churnLoss) - of_Z M * contactCost)%num).
Proof.
  intros host bst dst capacity contactCost churnLoss saveRate e N p M.
  pose proof (clamped_range capacity (size_nonneg (BusinessTool.rows bst))) as HN.
  pose proof (clamped_range capacity (size_nonneg (DecisionTool.rows dst))) as HM.
  fold N in HN. fold M in HM.
  assert (He : BusinessTool.contacted e = slice_to N (BusinessTool.rows bst))
    by apply business_contacted.
  assert (Hp : DecisionTool.contacted p = slice_to M (DecisionTool.rows dst))
    by apply decision_contacted.
  split.
  - repeat split; try apply HN; try exact He.
    + rewrite He. now apply slice_to_length.
    + subst e N. cbn [BusinessTool.profitFor BusinessTool.cost].
      fold (size (BusinessTool.rows bst)).
      now rewrite clamp_clamped by apply size_nonneg.
  - repeat split; try apply HM; try exact Hp.
    + subst p M. cbn [DecisionTool.computePolicy DecisionTool.contacts].
      fold (size (DecisionTool.rows dst)).
      now rewrite clamp_clamped by apply size_nonneg.
    + rewrite Hp. now apply slice_to_length.
    + subst p M. cbn [DecisionTool.computePolicy DecisionTool.contacts
                       DecisionTool.profit DecisionTool.contacted DecisionTool.tp].
      fold (size (DecisionTool.rows dst)).
      now rewrite clamp_clamped by apply size_nonneg.
Qed.

(** C2. For every contacted slice, the expected true positives are the
    exact count of contacted entries whose label is one when the dataset is
    labelled, and the sum of the risk scores of the contacted entries when
    it is not; in both revisions. *)
Theorem expected_true_positives_count_or_sum :
  forall (host : Host) (bst : BusinessTool.state) (slice : list row)
         (parsed : list obj) (capacity : Z) (contactCost churnLoss saveRate : num),
    let dst := DecisionTool.init parsed in
    let p := DecisionTool.computePolicy dst capacity contactCost churnLoss saveRate in
    BusinessTool.expectedTP bst slice
    = (if BusinessTool.hasActual bst
       then of_Z (count churned slice)
       else sum_risk slice)
    /\
    DecisionTool.expectedTP dst (DecisionTool.contacted p) (DecisionTool.tp p)
    = (if DecisionTool.hasActual dst
       then of_Z (count churned (DecisionTool.contacted p))
       else sum_risk (DecisionTool.contacted p)).
Proof.
  intros host bst slice parsed capacity contactCost churnLoss saveRate dst p.
  split.
  - destruct (BusinessTool.hasActual bst) eqn:E.
    + now apply business_tp_count.
    + now apply business_tp_sum.
  - unfold DecisionTool.expectedTP.
    destruct (DecisionTool.hasActual dst) eqn:E; cbn [negb].
    + subst p. cbn [DecisionTool.computePolicy DecisionTool.tp DecisionTool.contacted].
      rewrite E, decision_counts. reflexivity.
    + apply fold_sum_toNumber. subst p. rewrite decision_contacted.
      apply Forall_firstn, decision_init_finite.
Qed.

(* ===================================================================== *)
(** ** Precision and recall *)
(* ===================================================================== *)

Section Metrics.
Context {host : Host}.

Lemma ratio_or_zero_unit (a b : Z) :
  (0 <= a <= b)%Z -> in_unit (ratio_or_zero a b).
Proof.
  intros H. unfold ratio_or_zero, in_unit.
  destruct (0 <? b)%Z eqn:E.
  - apply Z.ltb_lt in E. destruct (Qdiv_counts_unit H E) as [H0 H1].
    rewrite !nle_Fin, Qred_correct. now split.
  - split; reflexivity.
Qed.

Lemma ratio_or_zero_mono (a a' b : Z) :
  (a <= a')%Z -> (ratio_or_zero a b <=? ratio_or_zero a' b)%num = true.
Proof.
  intros H. unfold ratio_or_zero. destruct (0 <? b)%Z eqn:E.
  - apply Z.ltb_lt in E. rewrite nle_Fin, Qred_le. now apply Qdiv_counts_le.
  - reflexivity.
Qed.

Lemma ratio_or_zero_self (a : Z) :
  ratio_or_zero a a = if (0 <? a)%Z then Fin 1 else Fin 0.
Proof.
  unfold ratio_or_zero. destruct (0 <? a)%Z eqn:E; [|reflexivity].
  apply Z.ltb_lt in E. rewrite <- ndiv_of_Z_pos by assumption.
  now apply ndiv_of_Z_self.
Qed.

Lemma guarded_division (a b : Z) :
  (if (of_Z b >? Fin 0)%num then (of_Z a / of_Z b)%num else Fin 0)
  = ratio_or_zero a b.
Proof.
  unfold ratio_or_zero. rewrite ngt_of_Z_0.
  destruct (0 <? b)%Z eqn:E; [|reflexivity].
  apply Z.ltb_lt in E. now apply ndiv_of_Z_pos.
Qed.

Lemma business_metrics (bst : BusinessTool.state) (l : list row) :
  BusinessTool.hasActual bst = true ->
  BusinessTool.computePrecisionRecall bst l
  = BusinessTool.mkMetrics
      (Some (ratio_or_zero (count churned l) (size l)))
      (Some (ratio_or_zero (count churned l)
                           (count churned (BusinessTool.rows bst))))
      (Some (of_Z (count churned l)))
      (Some (of_Z (size l - count churned l)))
      (Some (of_Z (count churned (BusinessTool.rows bst)))).
Proof.
  intros H. unfold BusinessTool.computePrecisionRecall. rewrite H. cbn [negb].
  rewrite business_counts, business_totalPos. cbn [fst snd].
  rewrite of_Z_add, !guarded_division.
  now replace (count churned l + (size l - count churned l))%Z with (size l) by lia.
Qed.

Lemma decision_metrics (dst : DecisionTool.state) (capacity : Z)
  (contactCost churnLoss saveRate : num) :
  DecisionTool.hasActual dst = true ->
  let p := DecisionTool.computePolicy dst capacity contactCost churnLoss saveRate in
  let l := DecisionTool.contacted p in
  DecisionTool.precision p
  = Some (ratio_or_zero (count churned l) (size l)) /\
  DecisionTool.recall p
  = Some (ratio_or_zero (count churned l)
                        (count churned (DecisionTool.rows dst))) /\
  DecisionTool.tp p = of_Z (count churned l) /\
  DecisionTool.fp p = of_Z (size l - count churned l).
Proof.
  intros H p l. subst l p.
  cbn [DecisionTool.computePolicy DecisionTool.precision DecisionTool.recall
       DecisionTool.contacted DecisionTool.tp DecisionTool.fp].
  rewrite H, decision_counts, decision_totalPos. cbn [fst snd].
  rewrite of_Z_add, !guarded_division.
  match goal with
  | |- context [(?a + (?b - ?a))%Z] => replace (a + (b - a))%Z with b by lia
  end.
  repeat split.
Qed.

(** Precision and recall of a prefix of a labelled population. *)
Lemma prefix_metrics (rows : list row) (c1 c2 : Z) :
  (c1 <= c2)%Z ->
  let n := size rows in
  let P := count churned rows in
  let l1 := slice_to (clamped c1 n) rows in
  let l2 := slice_to (clamped c2 n) rows in
  in_unit (ratio_or_zero (count churned l1) (size l1)) /\
  in_unit (ratio_or_zero (count churned l1) P) /\
  (ratio_or_zero (count churned l1) P <=? ratio_or_zero (count churned l2) P)%num
  = true /\
  ratio_or_zero (count churned (slice_to (clamped n n) rows)) P
  = (if (0 <? P)%Z then Fin 1 else Fin 0).
Proof.
  intros Hc n P l1 l2.
  pose proof (size_nonneg rows) as Hn. fold n in Hn.
  split; [|split; [|split]].
  - apply ratio_or_zero_unit. split; [apply count_nonneg | apply count_le_size].
  - apply ratio_or_zero_unit. split; [apply count_nonneg | apply count_firstn_le].
  - apply ratio_or_zero_mono. subst l1 l2. unfold slice_to.
    apply count_firstn_mono.
    rewrite <- !clamp_clamped by assumption.
    pose proof (clamp_mono n Hc). pose proof (clamp_range c1 Hn). lia.
  - rewrite <- clamp_clamped, clamp_full by assumption.
    subst n. rewrite slice_to_full. apply ratio_or_zero_self.
Qed.

End Metrics.

(** C3 (amended). For every labelled population and every capacity,
    precision and recall are the guarded ratios (precision is 0 when the
    contacted count is 0, recall is 0 when the total positive count is 0),
    both lie in [[0, 1]], recall is non-decreasing in capacity, and at
    capacity equal to the population size recall is 1 when the population
    has at least one positive and 0 when it has none; in both revisions. *)
Theorem precision_recall_bounds_and_monotone :
  forall (host : Host) (bst : BusinessTool.state) (dst : DecisionTool.state)
         (c1 c2 : Z) (contactCost churnLoss saveRate : num),
    BusinessTool.hasActual bst = true ->
    DecisionTool.hasActual dst = true ->
    (c1 <= c2)%Z ->
    let slice c :=
      BusinessTool.contacted
        (BusinessTool.profitFor bst c contactCost churnLoss saveRate) in
    let m c := BusinessTool.computePrecisionRecall bst (slice c) in
    let p c := DecisionTool.computePolicy dst c contactCost churnLoss saveRate in
    let bP := count churned (BusinessTool.rows bst) in
    let dP := count churned (DecisionTool.rows dst) in
    (BusinessTool.precision (m c1)
     = Some (ratio_or_zero (count churned (slice c1)) (size (slice c1))) /\
     BusinessTool.recall (m c1)
     = Some (ratio_or_zero (count churned (slice c1)) bP) /\
     metric_in_unit (BusinessTool.precision (m c1)) /\
     metric_in_unit (BusinessTool.recall (m c1)) /\
     metric_le (BusinessTool.recall (m c1)) (BusinessTool.recall (m c2)) /\
     BusinessTool.recall (m (size (BusinessTool.rows bst)))
     = Some (if (0 <? bP)%Z then Fin 1 else Fin 0))
    /\
    (DecisionTool.precision (p c1)
     = Some (ratio_or_zero (count churned (DecisionTool.contacted (p c1)))
                           (size (DecisionTool.contacted (p c1)))) /\
     DecisionTool.recall (p c1)
     = Some (ratio_or_zero (count churned (DecisionTool.contacted (p c1))) dP) /\
     metric_in_unit (DecisionTool.precision (p c1)) /\
     metric_in_unit (DecisionTool.recall (p c1)) /\
     metric_le (DecisionTool.recall (p c1)) (DecisionTool.recall (p c2)) /\
     DecisionTool.recall (p (size (DecisionTool.rows dst)))
     = Some (if (0 <? dP)%Z then Fin 1 else Fin 0)).
Proof.
  intros host bst dst c1 c2 contactCost churnLoss saveRate Hb Hd Hc slice m p bP dP.
  split.
  - destruct (prefix_metrics (BusinessTool.rows bst) Hc) as (U1 & U2 & Hm & Hf).
    subst m slice. cbv beta.
    rewrite !(business_metrics _ _ Hb). cbn [BusinessTool.precision BusinessTool.recall].
    rewrite !business_contacted.
    repeat split; try apply U1; try apply U2; try exact Hm.
    now rewrite Hf.
  - destruct (prefix_metrics (DecisionTool.rows dst) Hc) as (U1 & U2 & Hm & Hf).
    subst p. cbv beta.
    destruct (@decision_metrics host dst c1 contactCost churnLoss saveRate Hd)
      as (P1 & R1 & _).
    destruct (@decision_metrics host dst c2 contactCost churnLoss saveRate Hd)
      as (_ & R2 & _).
    destruct (@decision_metrics host dst (size (DecisionTool.rows dst))
                contactCost churnLoss saveRate Hd) as (_ & Rf & _).
    cbv zeta in P1, R1, R2, Rf.
    rewrite P1, R1, R2, Rf. rewrite !decision_contacted.
    repeat split; try apply U1; try apply U2; try exact Hm.
    now rewrite Hf.
Qed.

(** Witness of C3 on the scenario population, capacities 1 and 3. *)
Lemma precision_recall_bounds_and_monotone_witness :
  let bst := BusinessTool.init (host := ExampleHost.host) ExampleHost.scenario in
  let dst := DecisionTool.init (host := ExampleHost.host) ExampleHost.scenario in
  let m c :=
    BusinessTool.computePrecisionRecall bst
      (BusinessTool.contacted
         (BusinessTool.profitFor bst c (Fin 10) (Fin 100) (Fin (1 # 2)))) in
  BusinessTool.hasActual bst = true /\
  DecisionTool.hasActual dst = true /\
  (1 <= 3)%Z /\
  metric_le (BusinessTool.recall (m 1%Z)) (BusinessTool.recall (m 3%Z)).
Proof.
  split; [reflexivity|]. split; [reflexivity|]. split; [lia|].
  apply (precision_recall_bounds_and_monotone
           ExampleHost.host
           (BusinessTool.init (host := ExampleHost.host) ExampleHost.scenario)
           (DecisionTool.init (host := ExampleHost.host) ExampleHost.scenario)
           (c1 := 1) (c2 := 3) (Fin 10) (Fin 100) (Fin (1 # 2)));
    [reflexivity | reflexivity | lia].
Defined.

(** Counterexample to C3 as stated: a labelled population whose only
    customer did not churn has recall 0, not 1, at full capacity. *)
Lemma recall_at_full_capacity_not_one :
  let bst := BusinessTool.init (host := ExampleHost.host) ExampleHost.loyal in
  let dst := DecisionTool.init (host := ExampleHost.host) ExampleHost.loyal in
  let full := size (BusinessTool.rows bst) in
  BusinessTool.hasActual bst = true /\
  full = 1%Z /\
  BusinessTool.recall
    (BusinessTool.computePrecisionRecall bst
       (BusinessTool.contacted
          (BusinessTool.profitFor bst full (Fin 20) (Fin 200) (Fin (1 # 4)))))
  = Some (Fin 0) /\
  DecisionTool.recall
    (DecisionTool.computePolicy (host := ExampleHost.host) dst full (Fin 20) (Fin 200) (Fin (1 # 4)))
  = Some (Fin 0) /\
  Some (Fin 0) <> Some (Fin 1).
Proof.
  repeat split; try reflexivity. discriminate.
Qed.

(* ===================================================================== *)
(** ** Return on investment and break-even save rate *)
(* ===================================================================== *)

Section BreakEven.

Local Open Scope Q_scope.

Lemma nle_Fin_false (x y : Q) : (Fin x <=? Fin y)%num = false <-> y < x.
Proof.
  unfold nle. split; intros H.
  - apply Qnot_le_lt. intros Hle. apply Qle_bool_iff in Hle. congruence.
  - destruct (Qle_bool x y) eqn:E; [|reflexivity].
    apply Qle_bool_iff in E. exfalso. now apply (Qlt_not_le _ _ H).
Qed.

Lemma break_even_value (tp loss cc : Q) (contacts : Z) :
  0 < tp -> 0 < loss ->
  BusinessTool.breakEvenSaveRate (Fin tp) contacts (Fin loss) (Fin cc)
  = Some (Fin (Qred (Qred (inject_Z contacts * cc) / Qred (tp * loss)))).
Proof.
  intros Ht Hl. unfold BusinessTool.breakEvenSaveRate.
  rewrite (proj2 (nle_Fin_false tp 0) Ht), (proj2 (nle_Fin_false loss 0) Hl).
  cbn [orb]. f_equal. unfold of_Z, nmul, ndiv.
  destruct (Qeq_bool (Qred (tp * loss)) 0) eqn:E; [|reflexivity].
  apply Qeq_bool_iff in E. rewrite Qred_correct in E. exfalso.
  assert (0 < tp * loss) by (apply Qmult_lt_0_compat; assumption).
  rewrite E in H. now apply (Qlt_irrefl 0).
Qed.

Lemma break_even_zero_profit (tp loss cc : Q) (contacts : Z) :
  0 < tp -> 0 < loss ->
  (Fin tp
   * (Fin (Qred (Qred (inject_Z contacts * cc) / Qred (tp * loss))) * Fin loss)
   - of_Z contacts * Fin cc)%num
  = Fin 0.
Proof.
  intros Ht Hl. unfold of_Z, nmul, nsub.
  change (Fin 0) with (Fin (Qred 0)). apply Fin_Qred_eq.
  rewrite !Qred_correct. field.
  split; intros E; rewrite E in *; now apply (Qlt_irrefl 0).
Qed.

End BreakEven.

(** C4. [breakEvenSaveRate] returns the sentinel exactly when
    [expectedTruePositives <= 0] or [churnLoss <= 0]; otherwise it returns
    [(contacts * contactCost) / (expectedTruePositives * churnLoss)], and
    with that rate the profit formula, on the same contacts, cost, loss
    and expected true positives, gives profit 0 (numbers being exact, the
    tolerance is zero); so does [profitFor] at a capacity within the
    population. *)
Theorem break_even_sentinel_and_zero_profit :
  forall (tpExp churnLoss contactCost : num) (contacts : Z),
    (BusinessTool.breakEvenSaveRate tpExp contacts churnLoss contactCost = None
     <-> (tpExp <=? Fin 0)%num = true \/ (churnLoss <=? Fin 0)%num = true)
    /\
    (BusinessTool.breakEvenSaveRate tpExp contacts churnLoss contactCost = None \/
     BusinessTool.breakEvenSaveRate tpExp contacts churnLoss contactCost
     = Some ((of_Z contacts * contactCost) / (tpExp * churnLoss))%num)
    /\
    (forall tp loss cc : Q,
        tpExp = Fin tp -> churnLoss = Fin loss -> contactCost = Fin cc ->
        ~ (tp <= 0 \/ loss <= 0)%Q ->
        exists sr,
          BusinessTool.breakEvenSaveRate tpExp contacts churnLoss contactCost
          = Some sr /\
          (tpExp * (sr * churnLoss) - of_Z contacts * contactCost)%num = Fin 0 /\
          forall (st : BusinessTool.state) (saveRate0 : num),
            (0 <= contacts <= size (BusinessTool.rows st))%Z ->
            BusinessTool.tpExp
              (BusinessTool.profitFor st contacts contactCost churnLoss saveRate0)
            = tpExp ->
            BusinessTool.profit
              (BusinessTool.profitFor st contacts contactCost churnLoss sr)
            = Fin 0).
Proof.
  intros tpExp churnLoss contactCost contacts.
  unfold BusinessTool.breakEvenSaveRate at 1 2 3.
  split; [|split].
  - destruct ((tpExp <=? Fin 0) || (churnLoss <=? Fin 0))%num eqn:E.
    + split; [intros _|reflexivity]. now apply orb_true_iff in E.
    + split; [discriminate|]. intros H. apply orb_true_iff in H. congruence.
  - destruct ((tpExp <=? Fin 0) || (churnLoss <=? Fin 0))%num; [now left | now right].
  - intros tp loss cc -> -> -> Hpos.
    assert (Ht : (0 < tp)%Q).
    { apply Qnot_le_lt. intros H. apply Hpos. now left. }
    assert (Hl : (0 < loss)%Q).
    { apply Qnot_le_lt. intros H. apply Hpos. now right. }
    eexists. split; [now apply break_even_value|].
    split; [now apply break_even_zero_profit|].
    intros st saveRate0 Hc Htp.
    cbn [BusinessTool.profitFor BusinessTool.profit BusinessTool.tpExp] in *.
    rewrite Htp. fold (size (BusinessTool.rows st)).
    replace (clamp contacts 0 (size (BusinessTool.rows st))) with contacts
      by (unfold clamp; lia).
    now apply break_even_zero_profit.
Qed.

(** Witness of C4: one expected churner, 2 contacts at cost 10, loss 100. *)
Lemma break_even_sentinel_and_zero_profit_witness :
  ~ (1 <= 0 \/ 100 <= 0)%Q /\
  exists sr,
    BusinessTool.breakEvenSaveRate (Fin 1) 2 (Fin 100) (Fin 10) = Some sr /\
    (Fin 1 * (sr * Fin 100) - of_Z 2 * Fin 10)%num = Fin 0.
Proof.
  assert (H : ~ (1 <= 0 \/ 100 <= 0)%Q).
  { intros [H|H]; vm_compute in H; apply H; reflexivity. }
  split; [exact H|].
  destruct (proj2 (proj2 (break_even_sentinel_and_zero_profit
                            (Fin 1) (Fin 100) (Fin 10) 2))
              1%Q 100%Q 10%Q eq_refl eq_refl eq_refl H) as (sr & Hsr & Hzero & _).
  exists sr. split; assumption.
Defined.

(** C5. [roi] returns the sentinel exactly when [cost <= 0], and
    otherwise returns [profit / cost]; for a positive finite cost this is
    the exact quotient. *)
Theorem roi_sentinel_iff_cost_not_positive :
  forall profit cost : num,
    (BusinessTool.roi profit cost = None <-> (cost <=? Fin 0)%num = true)
    /\
    (BusinessTool.roi profit cost = None \/
     BusinessTool.roi profit cost = Some (profit / cost)%num)
    /\
    (forall p c : Q,
        profit = Fin p -> cost = Fin c -> ~ (c <= 0)%Q ->
        BusinessTool.roi profit cost = Some (Fin (Qred (p / c)))).
Proof.
  intros profit cost. unfold BusinessTool.roi.
  split; [|split].
  - destruct (cost <=? Fin 0)%num; split; congruence.
  - destruct (cost <=? Fin 0)%num; [now left | now right].
  - intros p c -> -> Hc.
    assert (Hlt : (0 < c)%Q) by now apply Qnot_le_lt.
    rewrite (proj2 (nle_Fin_false c 0) Hlt). f_equal. unfold ndiv.
    destruct (Qeq_bool c 0) eqn:E; [|reflexivity].
    apply Qeq_bool_iff in E. rewrite E in Hlt. now apply Qlt_irrefl in Hlt.
Qed.

(** Witness of C5: profit 30 on cost 20. *)
Lemma roi_sentinel_iff_cost_not_positive_witness :
  ~ (20 <= 0)%Q /\ BusinessTool.roi (Fin 30) (Fin 20) = Some (Fin (3 # 2)).
Proof.
  assert (H : ~ (20 <= 0)%Q) by (intros H; vm_compute in H; apply H; reflexivity).
  split; [exact H|].
  exact (proj2 (proj2 (roi_sentinel_iff_cost_not_positive (Fin 30) (Fin 20)))
           30%Q 20%Q eq_refl eq_refl H).
Defined.

(* ===================================================================== *)
(** ** The profit curve *)
(* ===================================================================== *)

Section Curve.

Variable st : BusinessTool.state.
Variables contactCost churnLoss saveRate : num.

Lemma curve_step_positive (n : Z) : (0 < BusinessTool.curve_step n)%Z.
Proof. unfold BusinessTool.curve_step. lia. Qed.

Lemma curve_loop_points (n cap : Z) :
  let pts := BusinessTool.curve_loop st contactCost churnLoss saveRate n cap in
  Forall (fun p => (cap <= BusinessTool.capacity p <= n)%Z /\
                   on_curve st contactCost churnLoss saveRate p) pts /\
  ascending (map BusinessTool.capacity pts).
Proof.
  funelim (BusinessTool.curve_loop st contactCost churnLoss saveRate n cap);
    cbv zeta in *.
  - destruct H as [HF HS]. pose proof (curve_step_positive n) as Hstep.
    split.
    + constructor.
      * split; [cbn; lia | reflexivity].
      * eapply Forall_impl; [|exact HF]. cbv beta. intros p [Hp Hc]. split; [lia|exact Hc].
    + cbn [map BusinessTool.capacity]. constructor; [exact HS|].
      apply Forall_map. eapply Forall_impl; [|exact HF].
      cbv beta. intros p [Hp _]. lia.
  - split; constructor.
Qed.

Lemma curve_loop_head (n : Z) :
  (0 <= n)%Z ->
  hd_error (map BusinessTool.capacity
              (BusinessTool.curve_loop st contactCost churnLoss saveRate n 0))
  = Some 0%Z.
Proof.
  intros Hn. simp curve_loop.
  destruct (Z_le_gt_dec 0 n) as [H|H]; [reflexivity | lia].
Qed.

Lemma ascending_last_bound (l : list Z) (x n : Z) :
  ascending (l ++ [x]) -> (x < n)%Z -> Forall (fun y => (y < n)%Z) (l ++ [x]).
Proof.
  induction l as [|y l IH]; cbn [app]; intros Hs Hx.
  - now repeat constructor.
  - inversion Hs as [|? ? Hs' Hy]; subst. constructor.
    + apply Forall_app in Hy. destruct Hy as [_ Hy].
      inversion Hy; subst. lia.
    + now apply IH.
Qed.

Lemma ascending_snoc (l : list Z) (n : Z) :
  ascending l -> Forall (fun y => (y < n)%Z) l -> ascending (l ++ [n]).
Proof.
  induction 1 as [|y l Hs IH Hy]; cbn [app]; intros Hn.
  - repeat constructor.
  - inversion Hn; subst. constructor.
    + now apply IH.
    + apply Forall_app. split; [assumption | now repeat constructor].
Qed.

Lemma last_capacity_snoc (l : list BusinessTool.point) (p : BusinessTool.point) :
  BusinessTool.last_capacity (l ++ [p]) = Some (BusinessTool.capacity p).
Proof.
  unfold BusinessTool.last_capacity. now rewrite rev_unit.
Qed.

Lemma last_capacity_inv (l : list BusinessTool.point) (c : Z) :
  BusinessTool.last_capacity l = Some c ->
  exists l' p, l = l' ++ [p] /\ BusinessTool.capacity p = c.
Proof.
  unfold BusinessTool.last_capacity. intros H.
  destruct (rev l) as [|p r] eqn:E; [discriminate|].
  injection H as <-. exists (rev r), p. split; [|reflexivity].
  rewrite <- (rev_involutive l), E. reflexivity.
Qed.

Lemma hd_error_app_some (l l' : list Z) (x : Z) :
  hd_error l = Some x -> hd_error (l ++ l') = Some x.
Proof. destruct l; [discriminate|]. trivial. Qed.

End Curve.

(** C6. For every non-empty population and every parameter tuple, the
    capacities of the profit curve are strictly ascending, the first one is
    0, the last one is the population size, and every point carries the
    profit that [profitFor] returns at its capacity with the same
    parameters. *)
Theorem profit_curve_invariants :
  forall (st : BusinessTool.state) (contactCost churnLoss saveRate : num),
    BusinessTool.rows st <> [] ->
    let points := BusinessTool.computeProfitCurve st contactCost churnLoss saveRate in
    ascending (map BusinessTool.capacity points) /\
    hd_error (map BusinessTool.capacity points) = Some 0%Z /\
    BusinessTool.last_capacity points = Some (size (BusinessTool.rows st)) /\
    Forall (on_curve st contactCost churnLoss saveRate) points.
Proof.
  intros st contactCost churnLoss saveRate Hne points.
  subst points. unfold BusinessTool.computeProfitCurve.
  fold (size (BusinessTool.rows st)).
  set (n := size (BusinessTool.rows st)).
  assert (Hn : (0 < n)%Z).
  { subst n. unfold size. destruct (BusinessTool.rows st); [congruence|].
    simpl List.length. lia. }
  destruct (n =? 0)%Z eqn:E0; [apply Z.eqb_eq in E0; lia|].
  destruct (curve_loop_points st contactCost churnLoss saveRate n 0) as [HF HS].
  pose proof (@curve_loop_head st contactCost churnLoss saveRate n (Z.lt_le_incl _ _ Hn))
    as Hhd.
  cbv zeta in HF, HS.
  set (pts := BusinessTool.curve_loop st contactCost churnLoss saveRate n 0) in *.
  assert (Hcurve : Forall (on_curve st contactCost churnLoss saveRate) pts).
  { eapply Forall_impl; [|exact HF]. now intros p [_ Hp]. }
  destruct (BusinessTool.last_capacity pts) as [c|] eqn:El.
  - destruct (c =? n)%Z eqn:Ec.
    + apply Z.eqb_eq in Ec. subst c. repeat split; assumption.
    + apply Z.eqb_neq in Ec.
      destruct (last_capacity_inv _ El) as (l' & p & Hl & Hp).
      assert (Hlt : Forall (fun y => (y < n)%Z) (map BusinessTool.capacity pts)).
      { rewrite Hl, map_app in *. cbn [map] in *.
        apply ascending_last_bound; [assumption|].
        apply Forall_app in HF. destruct HF as [_ HF].
        inversion HF as [|? ? [Hb _] _]; subst. lia. }
      rewrite map_app. cbn [map BusinessTool.capacity].
      repeat split.
      * now apply ascending_snoc.
      * now apply hd_error_app_some.
      * apply last_capacity_snoc.
      * apply Forall_app. split; [assumption|]. repeat constructor.
  - exfalso. destruct pts; [discriminate|].
    unfold BusinessTool.last_capacity in El. cbn [rev] in El.
    destruct (rev pts ++ [p]) eqn:E; [|discriminate].
    now apply app_eq_nil in E.
Qed.

(** Witness of C6: the curve of the scenario population. *)
Lemma profit_curve_invariants_witness :
  let st := BusinessTool.init (host := ExampleHost.host) ExampleHost.scenario in
  BusinessTool.rows st <> [] /\
  BusinessTool.last_capacity
    (BusinessTool.computeProfitCurve st (Fin 10) (Fin 100) (Fin (1 # 2)))
  = Some 4%Z.
Proof.
  assert (H : BusinessTool.rows
                (BusinessTool.init (host := ExampleHost.host) ExampleHost.scenario)
              <> []) by (vm_compute; discriminate).
  split; [exact H|].
  exact (proj1 (proj2 (proj2 (@profit_curve_invariants
                                 _ (Fin 10) (Fin 100) (Fin (1 # 2)) H)))).
Defined.

(* ===================================================================== *)
(** ** The random baseline and the base rate *)
(* ===================================================================== *)

Section Baseline.
Context {host : Host}.

Lemma business_init_rows (parsed : list obj) :
  BusinessTool.rows (BusinessTool.init parsed)
  = sort by_risk_desc (map BusinessTool.normalize parsed).
Proof. reflexivity. Qed.

Lemma business_init_baseRate (parsed : list obj) :
  let st := BusinessTool.init parsed in
  BusinessTool.baseRate st
  = Some (if BusinessTool.hasActual st
          then positive_rate (BusinessTool.rows st)
          else mean_risk (BusinessTool.rows st)).
Proof.
  cbv zeta. rewrite business_init_rows.
  pose proof (sort_perm (map BusinessTool.normalize parsed)) as HP.
  unfold positive_rate, mean_risk.
  rewrite <- (count_perm churned HP), <- (sum_risk_perm HP), <- (size_perm HP).
  unfold BusinessTool.init.
  cbn [BusinessTool.baseRate BusinessTool.hasActual]. f_equal.
  destruct (existsb _ _).
  - change (Fin 0) with (of_Z 0) at 2.
    rewrite (fold_count_add churned). reflexivity.
  - rewrite fold_sum_risk. reflexivity.
Qed.

Lemma business_init_hasActual (parsed : list obj) :
  BusinessTool.hasActual (BusinessTool.init parsed) = existsb has_label parsed.
Proof.
  unfold BusinessTool.init. cbn [BusinessTool.hasActual].
  induction parsed as [|o parsed IH]; [reflexivity|].
  cbn [map existsb]. rewrite IH. f_equal.
  unfold has_label. cbn [BusinessTool.normalize actual_churn].
  destruct (get o "actual_churn") as [s|]; [|reflexivity].
  now destruct (String.eqb s "").
Qed.

Lemma business_init_baseRate_records (parsed : list obj) :
  let records := map BusinessTool.normalize parsed in
  BusinessTool.baseRate (BusinessTool.init parsed)
  = Some (if BusinessTool.hasActual (BusinessTool.init parsed)
          then positive_rate records
          else mean_risk records).
Proof.
  cbv zeta. unfold positive_rate, mean_risk, BusinessTool.init.
  cbn [BusinessTool.baseRate BusinessTool.hasActual]. f_equal.
  destruct (existsb _ _).
  - change (Fin 0) with (of_Z 0) at 2.
    rewrite (fold_count_add churned). reflexivity.
  - rewrite fold_sum_risk. reflexivity.
Qed.

Lemma business_positive_records (parsed : list obj) :
  count churned (map BusinessTool.normalize parsed)
  = Z.of_nat (List.length (filter counts_as_churner parsed)).
Proof.
  unfold count. f_equal.
  induction parsed as [|o parsed IH]; [reflexivity|].
  cbn [map filter].
  assert (E : churned (BusinessTool.normalize o) = counts_as_churner o).
  { unfold churned, counts_as_churner, coerced_label.
    cbn [BusinessTool.normalize actual_churn].
    destruct (get o "actual_churn") as [s|]; [|reflexivity].
    destruct (String.eqb s "") eqn:Es; [|reflexivity].
    apply String.eqb_eq in Es. subst s.
    unfold toNumber, value_of, Number. rewrite StringToNumber_empty. reflexivity. }
  rewrite E. destruct (counts_as_churner o); cbn [List.length]; now rewrite IH.
Qed.

End Baseline.

(** C7. On a loaded population, for every capacity [N] (limited to
    [[0, population size]]), [randomStrategy] returns expected true
    positives [N * baseRate] and cost [N * contactCost], the cost and the
    profit formula being those of [profitFor].  [baseRate] is computed from
    the records of the file: labels exist exactly when some line has a
    non-empty label cell; then [baseRate] is the number of records whose
    coerced label is 1 over the number of records, and otherwise it is the
    sum of the risks of the records over their number.  These are also
    the positive rate and the mean risk of the ranked population. *)
Theorem random_baseline_uses_base_rate :
  forall (host : Host) (parsed : list obj) (capacity : Z)
         (contactCost churnLoss saveRate : num),
    let records := map BusinessTool.normalize parsed in
    let st := BusinessTool.init parsed in
    let N := clamped capacity (Z.of_nat (List.length parsed)) in
    let labelled := existsb has_label parsed in
    let rate := if labelled then positive_rate records else mean_risk records in
    let b := BusinessTool.randomStrategy st capacity contactCost churnLoss saveRate in
    let e := BusinessTool.profitFor st capacity contactCost churnLoss saveRate in
    BusinessTool.hasActual st = labelled /\
    size (BusinessTool.rows st) = Z.of_nat (List.length parsed) /\
    size records = Z.of_nat (List.length parsed) /\
    count churned records
    = Z.of_nat (List.length (filter counts_as_churner parsed)) /\
    BusinessTool.baseRate st = Some rate /\
    rate = (if labelled
            then (of_Z (Z.of_nat (List.length (filter counts_as_churner parsed)))
                  / of_Z (Z.of_nat (List.length parsed)))%num
            else (fold_left (fun acc r => (acc + churn_probability r)%num)
                            records (Fin 0)
                  / of_Z (Z.of_nat (List.length parsed)))%num) /\
    rate = (if BusinessTool.hasActual st
            then positive_rate (BusinessTool.rows st)
            else mean_risk (BusinessTool.rows st)) /\
    BusinessTool.b_tpExp b = (of_Z N * rate)%num /\
    BusinessTool.b_cost b = (of_Z N * contactCost)%num /\
    BusinessTool.b_cost b = BusinessTool.cost e /\
    BusinessTool.b_profit b
    = (BusinessTool.b_tpExp b * (saveRate * churnLoss) - BusinessTool.b_cost b)%num /\
    BusinessTool.profit e
    = (BusinessTool.tpExp e * (saveRate * churnLoss) - BusinessTool.cost e)%num.
Proof.
  intros host parsed capacity contactCost churnLoss saveRate
         records st N labelled rate b e.
  pose proof (business_init_hasActual parsed) as Hlab. fold st labelled in Hlab.
  pose proof (business_init_baseRate_records parsed) as Hrate.
  cbv zeta in Hrate. fold st records in Hrate. rewrite Hlab in Hrate.
  fold rate in Hrate.
  pose proof (business_init_baseRate parsed) as Hranked.
  cbv zeta in Hranked. fold st in Hranked.
  assert (Hrec : size records = Z.of_nat (List.length parsed)).
  { unfold size, records. now rewrite length_map. }
  assert (Hsize : size (BusinessTool.rows st) = Z.of_nat (List.length parsed)).
  { rewrite <- Hrec. symmetry. apply size_perm. apply sort_perm. }
  split; [exact Hlab|]. split; [exact Hsize|]. split; [exact Hrec|].
  split; [apply business_positive_records|].
  split; [exact Hrate|].
  split.
  { subst rate. unfold positive_rate, mean_risk.
    rewrite Hrec. unfold records.
    rewrite business_positive_records, fold_sum_risk. reflexivity. }
  split; [rewrite Hrate in Hranked; now injection Hranked|].
  subst b e N. unfold BusinessTool.randomStrategy, BusinessTool.profitFor.
  cbn [BusinessTool.b_tpExp BusinessTool.b_cost BusinessTool.b_profit
       BusinessTool.cost BusinessTool.profit BusinessTool.tpExp].
  fold (size (BusinessTool.rows st)).
  rewrite clamp_clamped by apply size_nonneg.
  rewrite Hrate, Hsize. repeat split.
Qed.

(* ===================================================================== *)
(** ** Ranking after loading *)
(* ===================================================================== *)

(** C8. After loading, the ranked population holds the normalised input
    records sorted by risk descending, entries of equal risk keeping their
    input order; it is the only list with these properties, so it is a
    function of the input record sequence alone.  In both revisions. *)
Theorem loaded_rows_are_stably_ranked :
  forall (host : Host) (parsed : list obj),
    let d0 := map DecisionTool.normalize parsed in
    let b0 := map BusinessTool.normalize parsed in
    (ranking_of d0 (DecisionTool.rows (DecisionTool.init parsed)) /\
     forall l, ranking_of d0 l -> l = DecisionTool.rows (DecisionTool.init parsed))
    /\
    (ranking_of b0 (BusinessTool.rows (BusinessTool.init parsed)) /\
     forall l, ranking_of b0 l -> l = BusinessTool.rows (BusinessTool.init parsed)).
Proof.
  intros host parsed d0 b0.
  pose proof (decision_rows0_finite parsed) as Fd.
  pose proof (business_rows0_finite parsed) as Fb.
  pose proof (sort_ranking Fd) as Rd. pose proof (sort_ranking Fb) as Rb.
  split; split; try assumption; intros l Hl.
  - exact (ranking_unique Fd Hl Rd).
  - exact (ranking_unique Fb Hl Rb).
Qed.

(** Witness of C8: the scenario file [d, b, a, c] is ranked [a, b, c, d]. *)
Lemma loaded_rows_are_stably_ranked_witness :
  let b0 := map (BusinessTool.normalize (host := ExampleHost.host))
                ExampleHost.scenario in
  ranking_of b0
    (BusinessTool.rows
       (BusinessTool.init (host := ExampleHost.host) ExampleHost.scenario)) /\
  map customer_id
    (BusinessTool.rows
       (BusinessTool.init (host := ExampleHost.host) ExampleHost.scenario))
  = ["a"; "b"; "c"; "d"]%string.
Proof.
  split; [|reflexivity].
  exact (proj1 (proj2 (loaded_rows_are_stably_ranked
                         ExampleHost.host ExampleHost.scenario))).
Defined.

(* ===================================================================== *)
(** ** The empty population *)
(* ===================================================================== *)

Section Empty.

Local Open Scope Q_scope.

Lemma zero_evaluation (tp k cc sr cl : Q) :
  tp == 0 -> k == 0 ->
  (Fin tp * (Fin sr * Fin cl) - Fin k * Fin cc)%num = Fin 0 /\
  (Fin k * Fin cc)%num = Fin 0.
Proof.
  intros Ht Hk. unfold nmul, nsub. change (Fin 0) with (Fin (Qred 0)).
  split; apply Fin_Qred_eq; rewrite ?Qred_correct, ?Ht, ?Hk; ring.
Qed.

End Empty.

(** C9 (the code departs from it). A CSV file with a header and no data
    line loads as the empty population.  There [profitFor] returns profit,
    cost and expected true positives 0 for all finite parameters, the curve
    is empty, precision and recall are the sentinel, and [roi] and
    [breakEvenSaveRate] of that evaluation are the sentinel; but [init]
    has divided 0 by 0, so [baseRate] is NaN and [randomStrategy] returns
    NaN as expected true positives and as profit.  Before any load
    ([baseRate] still [null]) [randomStrategy] returns 0. *)
Theorem empty_population_random_baseline_is_NaN :
  forall (host : Host) (capacity : Z) (contactCost churnLoss saveRate : Q),
    let st := BusinessTool.init [] in
    let cc := Fin contactCost in
    let cl := Fin churnLoss in
    let sr := Fin saveRate in
    let e := BusinessTool.profitFor st capacity cc cl sr in
    let b := BusinessTool.randomStrategy st capacity cc cl sr in
    BusinessTool.rows st = [] /\
    e = BusinessTool.mkEvaluation (Fin 0) (Fin 0) (Fin 0) [] /\
    BusinessTool.computeProfitCurve st cc cl sr = [] /\
    BusinessTool.computePrecisionRecall st (BusinessTool.contacted e)
    = BusinessTool.mkMetrics None None None None None /\
    BusinessTool.roi (BusinessTool.profit e) (BusinessTool.cost e) = None /\
    BusinessTool.breakEvenSaveRate (BusinessTool.tpExp e) capacity cl cc = None /\
    BusinessTool.baseRate st = Some NaN /\
    BusinessTool.b_tpExp b = NaN /\
    BusinessTool.b_profit b = NaN /\
    BusinessTool.b_cost b = Fin 0 /\
    BusinessTool.randomStrategy BusinessTool.initial capacity cc cl sr
    = BusinessTool.mkBaseline (Fin 0) (Fin 0) (Fin 0).
Proof.
  intros host capacity contactCost churnLoss saveRate st cc cl sr e b.
  assert (HN : clamp capacity 0 0 = 0%Z) by (unfold clamp; lia).
  destruct (@zero_evaluation 0 0 contactCost saveRate churnLoss
              (Qeq_refl 0) (Qeq_refl 0)) as [Hp Hc].
  assert (He : e = BusinessTool.mkEvaluation (Fin 0) (Fin 0) (Fin 0) []).
  { subst e st cc cl sr. unfold BusinessTool.profitFor.
    change (Z.of_nat (List.length (BusinessTool.rows (BusinessTool.init []))))
      with 0%Z.
    rewrite HN. change (of_Z 0) with (Fin 0).
    change (BusinessTool.expectedTP (BusinessTool.init [])
              (slice_to 0 (BusinessTool.rows (BusinessTool.init []))))
      with (Fin 0).
    now rewrite Hp, Hc. }
  assert (Hz : (Fin 0 * Fin 0)%num = Fin 0) by reflexivity.
  repeat split; try exact He; try (rewrite He; reflexivity); try reflexivity.
  - subst b st cc. unfold BusinessTool.randomStrategy.
    change (Z.of_nat (List.length (BusinessTool.rows (BusinessTool.init []))))
      with 0%Z.
    rewrite HN. cbn [BusinessTool.b_cost]. change (of_Z 0) with (Fin 0). exact Hc.
  - subst cc cl sr. unfold BusinessTool.randomStrategy.
    change (Z.of_nat (List.length (BusinessTool.rows BusinessTool.initial)))
      with 0%Z.
    rewrite HN. cbn [BusinessTool.baseRate BusinessTool.initial].
    change (of_Z 0) with (Fin 0). rewrite Hz, Hp, Hc. reflexivity.
Qed.

(* ===================================================================== *)
(** ** Labels *)
(* ===================================================================== *)

Section Labels.
Context {host : Host}.




End Labels.


(* ===================================================================== *)
(** ** The scenarios of the specification, evaluated *)
(* ===================================================================== *)

Section Scenarios.

Import ExampleHost.

(** Capacity 2, cost 10, loss 100, save rate 0.5: contacted [a, b], one
    true positive, cost 20, profit 30, precision and recall 1/2. *)
Example scenario_labelled :
  let e := BusinessTool.profitFor labelled 2 (Fin 10) (Fin 100) (Fin (1 # 2)) in
  let m := BusinessTool.computePrecisionRecall labelled (BusinessTool.contacted e) in
  map customer_id (BusinessTool.contacted e) = ["a"; "b"]%string /\
  BusinessTool.tpExp e = Fin 1 /\
  BusinessTool.cost e = Fin 20 /\
  BusinessTool.profit e = Fin 30 /\
  BusinessTool.precision m = Some (Fin (1 # 2)) /\
  BusinessTool.recall m = Some (Fin (1 # 2)).
Proof. repeat split. Qed.

(** Same risks without labels: 1.7 expected true positives, profit 65, no
    precision or recall. *)
Example scenario_unlabelled :
  let e := BusinessTool.profitFor plain 2 (Fin 10) (Fin 100) (Fin (1 # 2)) in
  let m := BusinessTool.computePrecisionRecall plain (BusinessTool.contacted e) in
  BusinessTool.tpExp e = Fin (17 # 10) /\
  BusinessTool.profit e = Fin 65 /\
  BusinessTool.precision m = None /\
  BusinessTool.recall m = None.
Proof. repeat split. Qed.

(** Capacity 0: nothing contacted, nothing spent, no ROI. *)
Example scenario_capacity_zero :
  let e := BusinessTool.profitFor labelled 0 (Fin 10) (Fin 100) (Fin (1 # 2)) in
  e = BusinessTool.mkEvaluation (Fin 0) (Fin 0) (Fin 0) [] /\
  BusinessTool.roi (BusinessTool.profit e) (BusinessTool.cost e) = None.
Proof. repeat split. Qed.

(** The first revision agrees on the labelled scenario. *)
Example scenario_first_revision :
  let p :=
    DecisionTool.computePolicy (host := ExampleHost.host)
      (DecisionTool.init (host := ExampleHost.host) ExampleHost.scenario)
      2 (Fin 10) (Fin 100) (Fin (1 # 2)) in
  DecisionTool.profit p = Fin 30 /\
  DecisionTool.contacts p = 2%Z /\
  DecisionTool.precision p = Some (Fin (1 # 2)) /\
  DecisionTool.recall p = Some (Fin (1 # 2)).
Proof. repeat split. Qed.

(** A population of 120 identical customers: step 50, then the forced
    last point. *)
Example curve_of_120 :
  map BusinessTool.capacity
    (BusinessTool.computeProfitCurve
       (BusinessTool.init (host := ExampleHost.host)
          (repeat (ExampleHost.customer "x" "0.5" "1") 120))
       (Fin 10) (Fin 100) (Fin (1 # 2)))
  = [0; 50; 100; 120]%Z.
Proof. vm_compute. reflexivity. Qed.

End Scenarios.

(* ===================================================================== *)
(** ** [escapeHtml] *)
(* ===================================================================== *)

Section Escaping.

Local Open Scope string_scope.

Lemma append_assoc (a b c : string) : (a ++ b) ++ c = a ++ (b ++ c).
Proof. induction a as [|x a IH]; simpl; [reflexivity | now rewrite IH]. Qed.

Lemma append_nil_r (a : string) : a ++ "" = a.
Proof. induction a as [|x a IH]; simpl; [reflexivity | now rewrite IH]. Qed.

Lemma replaceAll_app (c : ascii) (rep a b : string) :
  Text.replaceAll c rep (a ++ b)
  = Text.replaceAll c rep a ++ Text.replaceAll c rep b.
Proof.
  induction a as [|x a IH]; simpl; [reflexivity|].
  destruct (Ascii.eqb x c); simpl; rewrite IH; [|reflexivity].
  now rewrite append_assoc.
Qed.

Lemma escapeHtml_cons (a : ascii) (s : string) :
  Text.escapeHtml (String a s) = escape_char a ++ Text.escapeHtml s.
Proof.
  unfold Text.escapeHtml, escape_char.
  cbn [Text.replaceAll].
  destruct (Ascii.eqb a "&") eqn:E1.
  { rewrite !replaceAll_app. reflexivity. }
  cbn [Text.replaceAll].
  destruct (Ascii.eqb a "<") eqn:E2.
  { rewrite !replaceAll_app. reflexivity. }
  cbn [Text.replaceAll].
  destruct (Ascii.eqb a ">") eqn:E3.
  { rewrite !replaceAll_app. reflexivity. }
  cbn [Text.replaceAll].
  destruct (Ascii.eqb a "034") eqn:E4.
  { rewrite !replaceAll_app. reflexivity. }
  cbn [Text.replaceAll].
  destruct (Ascii.eqb a "'") eqn:E5; reflexivity.
Qed.

Lemma escapeHtml_one_pass (s : string) : Text.escapeHtml s = escape_chars s.
Proof.
  induction s as [|a s IH]; [reflexivity|].
  rewrite escapeHtml_cons. simpl. now rewrite IH.
Qed.

Lemma escape_chars_app (a b : string) :
  escape_chars (a ++ b) = escape_chars a ++ escape_chars b.
Proof.
  induction a as [|x a IH]; simpl; [reflexivity|].
  now rewrite IH, append_assoc.
Qed.

Lemma free_of_app (p : ascii -> bool) (a b : string) :
  free_of p (a ++ b) = (free_of p a && free_of p b)%bool.
Proof.
  induction a as [|x a IH]; simpl; [reflexivity|].
  now rewrite IH, andb_assoc.
Qed.

Lemma escape_char_markup_free (a : ascii) : free_of markup (escape_char a) = true.
Proof.
  unfold escape_char.
  destruct (Ascii.eqb a "&") eqn:E1; [reflexivity|].
  destruct (Ascii.eqb a "<") eqn:E2; [reflexivity|].
  destruct (Ascii.eqb a ">") eqn:E3; [reflexivity|].
  destruct (Ascii.eqb a "034") eqn:E4; [reflexivity|].
  destruct (Ascii.eqb a "'") eqn:E5; [reflexivity|].
  simpl. unfold markup. now rewrite E2, E3, E4, E5.
Qed.

Lemma escape_char_plain (a : ascii) :
  special a = false -> escape_char a = String a "".
Proof.
  unfold special, markup, escape_char. intros H.
  repeat match goal with
         | E : (_ || _)%bool = false |- _ =>
             apply orb_false_iff in E; destruct E
         end.
  now repeat match goal with
             | E : Ascii.eqb _ _ = false |- _ => rewrite E; clear E
             end.
Qed.

Lemma unescape_plain (a : ascii) (r : string) :
  Ascii.eqb a "&" = false -> unescapeHtml (String a r) = String a (unescapeHtml r).
Proof.
  destruct a as [[] [] [] [] [] [] [] []]; intros H; try discriminate H; reflexivity.
Qed.

Lemma unescape_escape_chars (s : string) : unescapeHtml (escape_chars s) = s.
Proof.
  induction s as [|a s IH]; [reflexivity|].
  cbn [escape_chars]. unfold escape_char.
  destruct (Ascii.eqb a "&") eqn:E1.
  { apply Ascii.eqb_eq in E1. subst a. cbn. now rewrite IH. }
  destruct (Ascii.eqb a "<") eqn:E2.
  { apply Ascii.eqb_eq in E2. subst a. cbn. now rewrite IH. }
  destruct (Ascii.eqb a ">") eqn:E3.
  { apply Ascii.eqb_eq in E3. subst a. cbn. now rewrite IH. }
  destruct (Ascii.eqb a "034") eqn:E4.
  { apply Ascii.eqb_eq in E4. subst a. cbn. now rewrite IH. }
  destruct (Ascii.eqb a "'") eqn:E5.
  { apply Ascii.eqb_eq in E5. subst a. cbn. now rewrite IH. }
  cbn [append]. rewrite unescape_plain by assumption. now rewrite IH.
Qed.

End Escaping.

(** X1. [escapeHtml] escapes every character exactly once: its five
    successive replacements amount to one pass that maps each of the five
    special characters to its entity and keeps the others (the ampersands
    of the entities are not escaped again), and the result contains none
    of the characters [<], [>], double quote and single quote. *)
Theorem escapeHtml_one_pass_and_markup_free :
  forall s : string,
    Text.escapeHtml s = escape_chars s /\
    free_of markup (Text.escapeHtml s) = true.
Proof.
  intros s. split; [apply escapeHtml_one_pass|].
  rewrite escapeHtml_one_pass.
  induction s as [|a s IH]; [reflexivity|].
  cbn [escape_chars]. rewrite free_of_app, escape_char_markup_free, IH. reflexivity.
Qed.

(** X2. [escapeHtml] loses nothing: reading the five entities back gives
    the original text, so two different texts are never escaped to the
    same one. *)
Theorem escapeHtml_round_trip :
  forall s t : string,
    unescapeHtml (Text.escapeHtml s) = s /\
    (Text.escapeHtml s = Text.escapeHtml t -> s = t).
Proof.
  intros s t.
  assert (H : forall u, unescapeHtml (Text.escapeHtml u) = u).
  { intros u. rewrite escapeHtml_one_pass. apply unescape_escape_chars. }
  split; [apply H|].
  intros E. rewrite <- (H s), <- (H t). now rewrite E.
Qed.

(** Witness of X2. *)
Lemma escapeHtml_round_trip_witness :
  Text.escapeHtml "a<b" = Text.escapeHtml "a<b" /\ "a<b"%string = "a<b"%string.
Proof.
  split; [reflexivity|].
  exact (proj2 (escapeHtml_round_trip "a<b" "a<b") eq_refl).
Defined.

(** X3. [escapeHtml] works character by character: the escape of a
    concatenation is the concatenation of the escapes, and a text without
    [&], [<], [>] and quotes is returned unchanged. *)
Theorem escapeHtml_concat_and_plain_text :
  forall a b : string,
    Text.escapeHtml (a ++ b) = (Text.escapeHtml a ++ Text.escapeHtml b)%string /\
    (free_of special a = true -> Text.escapeHtml a = a).
Proof.
  intros a b. rewrite !escapeHtml_one_pass. split; [apply escape_chars_app|].
  induction a as [|x a IH]; [reflexivity|].
  cbn [free_of escape_chars]. intros H. apply andb_true_iff in H. destruct H as [Hx Ha].
  apply negb_true_iff in Hx. rewrite (escape_char_plain _ Hx), (IH Ha). reflexivity.
Qed.

(** Witness of X3. *)
Lemma escapeHtml_concat_and_plain_text_witness :
  free_of special "C-1042" = true /\ Text.escapeHtml "C-1042" = "C-1042"%string.
Proof.
  split; [reflexivity|].
  exact (proj2 (escapeHtml_concat_and_plain_text "C-1042" "") eq_refl).
Defined.

(* ===================================================================== *)
(** ** [parseCSV] *)
(* ===================================================================== *)

Section Parsing.
Context {host : Host}.

Lemma get_set_own_same (o : obj) (k v : string) :
  get (Text.set_own o k v) k = Some v.
Proof.
  induction o as [|[k' v'] o IH]; simpl.
  - now rewrite String.eqb_refl.
  - destruct (String.eqb k' k) eqn:E; simpl.
    + now rewrite String.eqb_refl.
    + now rewrite E.
Qed.

Lemma get_set_own_other (o : obj) (k k' v : string) :
  k <> k' -> get (Text.set_own o k v) k' = get o k'.
Proof.
  intros Hne. induction o as [|[k0 v0] o IH]; simpl.
  - destruct (String.eqb k k') eqn:E; [|reflexivity].
    apply String.eqb_eq in E. contradiction.
  - destruct (String.eqb k0 k) eqn:E; simpl.
    + apply String.eqb_eq in E. subst k0.
      destruct (String.eqb k k') eqn:E'; [|reflexivity].
      apply String.eqb_eq in E'. contradiction.
    + now rewrite IH.
Qed.

Lemma get_set_same (o : obj) (k v : string) :
  k <> "__proto__"%string -> get (Text.set o k v) k = Some v.
Proof.
  intros Hk. unfold Text.set. apply String.eqb_neq in Hk. rewrite Hk.
  apply get_set_own_same.
Qed.

Lemma get_set_other (o : obj) (k k' v : string) :
  k <> k' -> get (Text.set o k v) k' = get o k'.
Proof.
  intros Hne. unfold Text.set.
  destruct (String.eqb k "__proto__"); [reflexivity|].
  now apply get_set_own_other.
Qed.

(** The record after the first [m] columns. *)
Lemma get_columns (header parts : list string) (k : string) (m : nat) :
  k <> "__proto__"%string ->
  get (fold_left
         (fun o j =>
            Text.set o (nth j header EmptyString)
                     (StringTrim (nth j parts EmptyString)))
         (seq 0 m) [])
      k
  = option_map (fun i => StringTrim (nth i parts EmptyString))
               (find_last k header m).
Proof.
  intros Hk. induction m as [|m IH]; [reflexivity|].
  rewrite seq_S, fold_left_app. cbn [fold_left find_last Nat.add].
  destruct (String.eqb (nth m header EmptyString) k) eqn:E.
  - apply String.eqb_eq in E. rewrite E. now apply get_set_same.
  - apply String.eqb_neq in E. rewrite get_set_other by assumption. exact IH.
Qed.

Lemma find_last_some (k : string) (header : list string) (m i : nat) :
  find_last k header m = Some i ->
  (i < m)%nat /\ nth i header EmptyString = k /\
  forall j, (i < j < m)%nat -> nth j header EmptyString <> k.
Proof.
  induction m as [|m IH]; [discriminate|]. cbn [find_last].
  destruct (String.eqb (nth m header EmptyString) k) eqn:E.
  - intros H. injection H as <-. apply String.eqb_eq in E.
    repeat split; [lia | assumption | intros j Hj; lia].
  - intros H. destruct (IH H) as (Hi & Hk & Hlast).
    repeat split; [lia | assumption |].
    intros j Hj. destruct (Nat.eq_dec j m) as [->|Hne].
    + now apply String.eqb_neq.
    + apply Hlast. lia.
Qed.

Lemma find_last_none (k : string) (header : list string) (m : nat) :
  find_last k header m = None <->
  forall j, (j < m)%nat -> nth j header EmptyString <> k.
Proof.
  induction m as [|m IH]; cbn [find_last].
  - split; [intros _ j Hj; lia | reflexivity].
  - destruct (String.eqb (nth m header EmptyString) k) eqn:E.
    + apply String.eqb_eq in E. split; [discriminate|].
      intros H. exfalso. apply (H m); [lia | assumption].
    + apply String.eqb_neq in E. rewrite IH. split; intros H j Hj.
      * destruct (Nat.eq_dec j m) as [->|Hne]; [assumption | apply H; lia].
      * apply H. lia.
Qed.

Lemma find_last_absent (k : string) (header : list string) :
  find_last k header (List.length header) = None <-> ~ In k header.
Proof.
  rewrite find_last_none. split.
  - intros H Hin. destruct (In_nth _ _ EmptyString Hin) as (j & Hj & Hk).
    now apply (H j).
  - intros H j Hj Hk. apply H. rewrite <- Hk. now apply nth_In.
Qed.

Lemma split_lines_length (s : string) :
  List.length (Text.split_lines s) = S (occurrences "010" s).
Proof.
  induction s as [|a s IH]; [reflexivity|].
  cbn [Text.split_lines occurrences].
  destruct (Ascii.eqb a "010") eqn:E.
  - cbn [List.length]. rewrite IH. reflexivity.
  - destruct (Ascii.eqb a "013" && Text.starts_with_newline s)%bool.
    + rewrite IH. reflexivity.
    + destruct (Text.split_lines s) as [|line lines]; [discriminate IH|].
      cbn [List.length] in *. rewrite IH. reflexivity.
Qed.

Lemma parseCSV_length (text : string) :
  List.length (Text.parseCSV text) = occurrences "010" (StringTrim text).
Proof.
  unfold Text.parseCSV. rewrite length_map.
  pose proof (split_lines_length (StringTrim text)) as H.
  destruct (Text.split_lines (StringTrim text)); [discriminate H|].
  cbn [tl List.length] in *. lia.
Qed.

Lemma existsb_none (A : Type) (f : A -> bool) (l : list A) :
  (forall x, In x l -> f x = false) -> existsb f l = false.
Proof.
  intros H. induction l as [|x l IH]; [reflexivity|].
  cbn [existsb]. rewrite (H x) by now left.
  apply IH. intros y Hy. apply H. now right.
Qed.

End Parsing.

(** X4. For every name [k] that is not a property of [Object.prototype],
    reading [k] from a record built by [parseCSV] gives the trimmed cell of
    the last column of the header named [k] (a cell missing from a short
    line reads as the trimmed empty text, cells beyond the header are
    ignored), and gives [undefined] exactly when no column is named [k]; a
    column named [__proto__] stores nothing. *)
Theorem parsed_record_follows_header :
  forall (host : Host) (header parts : list string) (k : string),
    ~ In k object_prototype_names ->
    let column := find_last k header (List.length header) in
    get (Text.record_of header parts) k
    = option_map (fun i => StringTrim (nth i parts EmptyString)) column /\
    (column = None <-> ~ In k header) /\
    (forall i, column = Some i ->
               (i < List.length header)%nat /\
               nth i header EmptyString = k /\
               forall j, (i < j < List.length header)%nat ->
                         nth j header EmptyString <> k) /\
    (forall o v, Text.set o "__proto__" v = o).
Proof.
  intros host header parts k Hk column. subst column.
  assert (Hproto : k <> "__proto__"%string).
  { intros ->. apply Hk. now left. }
  split; [now apply get_columns|]. split; [apply find_last_absent|].
  split; [intros i; apply find_last_some | reflexivity].
Qed.

(** Witness of X4: the name [x] heads columns 0 and 2; column 2 is kept. *)
Lemma parsed_record_follows_header_witness :
  ~ In "x"%string object_prototype_names /\
  get (Text.record_of (host := ExampleHost.host)
         ["x"; "y"; "x"]%string ["1"; "2"; "3"]%string) "x"
  = Some "3"%string.
Proof.
  assert (H : ~ In "x"%string object_prototype_names).
  { intros H. unfold object_prototype_names in H.
    repeat (destruct H as [H|H]; [discriminate H|]). exact H. }
  split; [exact H|].
  exact (proj1 (@parsed_record_follows_header ExampleHost.host
                  ["x"; "y"; "x"]%string ["1"; "2"; "3"]%string "x" H)).
Defined.

(** X5. [parseCSV] returns one record per line break of the trimmed text
    (a carriage return before a line feed belongs to the break).  A file
    with a header line only therefore loads as the empty population:
    no rows, no labels, and in part_000 a base rate that is NaN. *)
Theorem parsed_records_count_line_breaks :
  forall (host : Host) (text : string),
    List.length (Text.parseCSV text) = occurrences "010" (StringTrim text) /\
    (occurrences "010" (StringTrim text) = O ->
     BusinessTool.init (Text.parseCSV text)
     = BusinessTool.mkState [] false (Some NaN) /\
     DecisionTool.init (Text.parseCSV text) = DecisionTool.mkState [] false).
Proof.
  intros host text. split; [apply parseCSV_length|].
  intros H. rewrite <- parseCSV_length in H.
  destruct (Text.parseCSV text); [|discriminate H]. split; reflexivity.
Qed.

(** Witness of X5: a header line and nothing else. *)
Lemma parsed_records_count_line_breaks_witness :
  occurrences "010"
    (StringTrim (Host := ExampleHost.host) "customer_id,churn_probability") = O /\
  BusinessTool.init (host := ExampleHost.host)
    (Text.parseCSV (host := ExampleHost.host) "customer_id,churn_probability")
  = BusinessTool.mkState [] false (Some NaN).
Proof.
  split; [reflexivity|].
  exact (proj1 (proj2 (parsed_records_count_line_breaks
                         ExampleHost.host "customer_id,churn_probability")
                 eq_refl)).
Defined.

(** X6. When no column of the header is named [actual_churn], no loaded
    row has a label and the dataset is unlabelled, in both revisions. *)
Theorem no_label_column_means_unlabelled :
  forall (host : Host) (text : string),
    let lines := Text.split_lines (StringTrim text) in
    let header := map StringTrim (Text.split_on ","%char (hd EmptyString lines)) in
    ~ In "actual_churn"%string header ->
    BusinessTool.hasActual (BusinessTool.init (Text.parseCSV text)) = false /\
    DecisionTool.hasActual (DecisionTool.init (Text.parseCSV text)) = false /\
    Forall (fun r => actual_churn r = None)
           (BusinessTool.rows (BusinessTool.init (Text.parseCSV text))) /\
    Forall (fun r => actual_churn r = None)
           (DecisionTool.rows (DecisionTool.init (Text.parseCSV text))).
Proof.
  intros host text lines header Hno.
  assert (Hget : forall o, In o (Text.parseCSV text) ->
                           get o "actual_churn" = None).
  { intros o Ho. unfold Text.parseCSV in Ho. apply in_map_iff in Ho.
    destruct Ho as (line & <- & _). unfold Text.record_of.
    rewrite get_columns by discriminate. fold lines. fold header.
    now rewrite (proj2 (find_last_absent "actual_churn" header) Hno). }
  assert (Hb : Forall (fun r => actual_churn r = None)
                      (map BusinessTool.normalize (Text.parseCSV text))).
  { apply Forall_forall. intros r Hr. apply in_map_iff in Hr.
    destruct Hr as (o & <- & Ho). cbn [BusinessTool.normalize actual_churn].
    now rewrite (Hget o Ho). }
  assert (Hd : Forall (fun r => actual_churn r = None)
                      (map DecisionTool.normalize (Text.parseCSV text))).
  { apply Forall_forall. intros r Hr. apply in_map_iff in Hr.
    destruct Hr as (o & <- & Ho). cbn [DecisionTool.normalize actual_churn].
    now rewrite (Hget o Ho). }
  repeat split.
  - cbn [BusinessTool.init BusinessTool.hasActual]. apply existsb_none.
    intros r Hr. rewrite Forall_forall in Hb. now rewrite (Hb r Hr).
  - cbn [DecisionTool.init DecisionTool.hasActual]. apply existsb_none.
    intros r Hr. rewrite Forall_forall in Hd. now rewrite (Hd r Hr).
  - exact (Permutation_Forall (sort_perm _) Hb).
  - exact (Permutation_Forall (sort_perm _) Hd).
Qed.

(** Witness of X6: a file with an identifier and a risk column only. *)
Lemma no_label_column_means_unlabelled_witness :
  let text :=
    ("customer_id,churn_probability" ++ String "010" "a,0.9")%string in
  ~ In "actual_churn"%string
      (map (StringTrim (Host := ExampleHost.host))
         (Text.split_on ","%char
            (hd EmptyString
               (Text.split_lines (StringTrim (Host := ExampleHost.host) text))))) /\
  BusinessTool.hasActual
    (BusinessTool.init (host := ExampleHost.host)
       (Text.parseCSV (host := ExampleHost.host) text)) = false.
Proof.
  intros text.
  assert (H : ~ In "actual_churn"%string
                (map (StringTrim (Host := ExampleHost.host))
                   (Text.split_on ","%char
                      (hd EmptyString
                         (Text.split_lines
                            (StringTrim (Host := ExampleHost.host) text)))))).
  { vm_compute. intros [H|[H|[]]]; discriminate H. }
  split; [exact H|].
  exact (proj1 (no_label_column_means_unlabelled ExampleHost.host text H)).
Defined.

(* ===================================================================== *)
(** ** Finite rows and the agreement of the two revisions *)
(* ===================================================================== *)

Section Finite.

Lemma comparator_not_NaN (x y : row) :
  finite_row x -> finite_row y -> by_risk_desc x y <> NaN.
Proof.
  intros [Hx _] [Hy _]. unfold by_risk_desc.
  destruct (churn_probability x); try discriminate Hx.
  destruct (churn_probability y); try discriminate Hy.
  discriminate.
Qed.

End Finite.

(** X7. After [init] every stored risk is a finite number and every
    stored label is absent or a finite number, whatever the cells of the
    file contain, and the comparator of [rows.sort] is never NaN on two
    loaded rows; in both revisions. *)
Theorem loaded_rows_are_finite :
  forall (host : Host) (parsed : list obj),
    let b := BusinessTool.rows (BusinessTool.init parsed) in
    let d := DecisionTool.rows (DecisionTool.init parsed) in
    Forall finite_row b /\
    Forall finite_row d /\
    Forall (fun x => Forall (fun y => by_risk_desc x y <> NaN) b) b /\
    Forall (fun x => Forall (fun y => by_risk_desc x y <> NaN) d) d.
Proof.
  intros host parsed b d.
  pose proof (business_init_finite parsed) as Hb. fold b in Hb.
  pose proof (decision_init_finite parsed) as Hd. fold d in Hd.
  split; [exact Hb|]. split; [exact Hd|].
  split; apply Forall_forall; intros x Hx; apply Forall_forall; intros y Hy;
    apply comparator_not_NaN;
    match goal with
    | H : Forall finite_row ?l, I : In ?z ?l |- finite_row ?z =>
        exact (proj1 (Forall_forall _ _) H z I)
    end.
Qed.

(** X8. On the same ranked rows with finite risks and the same label
    flag, the two revisions agree: [computePolicy] returns the contacted
    slice and profit of [profitFor] and the precision and recall of
    [computePrecisionRecall]. *)
Theorem revisions_agree :
  forall (host : Host) (rows : list row) (labelled : bool) (base : option num)
         (capacity : Z) (contactCost churnLoss saveRate : num),
    Forall finite_row rows ->
    let p := DecisionTool.computePolicy (DecisionTool.mkState rows labelled)
               capacity contactCost churnLoss saveRate in
    let bst := BusinessTool.mkState rows labelled base in
    let e := BusinessTool.profitFor bst capacity contactCost churnLoss saveRate in
    let m := BusinessTool.computePrecisionRecall bst (BusinessTool.contacted e) in
    DecisionTool.contacted p = BusinessTool.contacted e /\
    DecisionTool.profit p = BusinessTool.profit e /\
    DecisionTool.precision p = BusinessTool.precision m /\
    DecisionTool.recall p = BusinessTool.recall m /\
    BusinessTool.tp m = (if labelled then Some (DecisionTool.tp p) else None) /\
    BusinessTool.fp m = (if labelled then Some (DecisionTool.fp p) else None).
Proof.
  intros host rows labelled base capacity contactCost churnLoss saveRate HF p bst e m.
  subst p bst e m.
  unfold DecisionTool.computePolicy, BusinessTool.profitFor,
    BusinessTool.computePrecisionRecall, DecisionTool.expectedTP.
  cbn [DecisionTool.rows DecisionTool.hasActual BusinessTool.rows
       BusinessTool.hasActual BusinessTool.contacted BusinessTool.profit
       DecisionTool.contacted DecisionTool.profit DecisionTool.precision
       DecisionTool.recall DecisionTool.tp DecisionTool.fp].
  set (l := slice_to (clamp capacity 0 (Z.of_nat (List.length rows))) rows).
  assert (Hl : Forall finite_row l) by (apply Forall_firstn, HF).
  rewrite decision_counts, decision_totalPos.
  destruct labelled; cbn [negb].
  - cbn [BusinessTool.precision BusinessTool.recall BusinessTool.tp BusinessTool.fp].
    rewrite ?business_counts, ?business_totalPos. cbn [fst snd].
    try rewrite (@business_tp_count (BusinessTool.mkState rows true base) l eq_refl).
    rewrite ?business_totalPos.
    repeat split.
  - cbn [BusinessTool.precision BusinessTool.recall BusinessTool.tp BusinessTool.fp].
    rewrite ?(fold_sum_toNumber Hl).
    try rewrite (@business_tp_sum (BusinessTool.mkState rows false base) l eq_refl).
    repeat split.
Qed.

(** Witness of X8 on the ranked scenario rows. *)
Lemma revisions_agree_witness :
  let rows := BusinessTool.rows ExampleHost.labelled in
  Forall finite_row rows /\
  DecisionTool.profit
    (DecisionTool.computePolicy (host := ExampleHost.host)
       (DecisionTool.mkState rows true) 2 (Fin 10) (Fin 100) (Fin (1 # 2)))
  = BusinessTool.profit
      (BusinessTool.profitFor (BusinessTool.mkState rows true None)
         2 (Fin 10) (Fin 100) (Fin (1 # 2))).
Proof.
  intros rows.
  assert (H : Forall finite_row rows).
  { subst rows. repeat constructor. }
  split; [exact H|].
  exact (proj1 (proj2 (revisions_agree ExampleHost.host true None 2
                         (Fin 10) (Fin 100) (Fin (1 # 2)) H))).
Defined.

(* ===================================================================== *)
(** ** The base rate of a loaded population *)
(* ===================================================================== *)

Section LoadedRate.
Context {host : Host}.

Local Open Scope Q_scope.

Lemma inject_Z_nonneg (n : Z) : (0 <= n)%Z -> 0 <= inject_Z n.
Proof. intros Hn. change 0 with (inject_Z 0). now rewrite <- Zle_Qle. Qed.

Lemma Qmult_le_l_nonneg (z x y : Q) : 0 <= z -> x <= y -> z * x <= z * y.
Proof.
  intros Hz Hxy. rewrite (Qmult_comm z x), (Qmult_comm z y).
  now apply Qmult_le_compat_r.
Qed.

Lemma business_init_size (parsed : list obj) :
  size (BusinessTool.rows (BusinessTool.init parsed))
  = Z.of_nat (List.length parsed).
Proof.
  rewrite business_init_rows, <- (size_perm (sort_perm _)).
  unfold size. now rewrite length_map.
Qed.

Lemma business_init_size_positive (parsed : list obj) :
  parsed <> [] -> (0 < size (BusinessTool.rows (BusinessTool.init parsed)))%Z.
Proof.
  intros H. rewrite business_init_size.
  destruct parsed; [contradiction | simpl List.length; lia].
Qed.

End LoadedRate.

(** X11. On a loaded, non-empty, labelled population the base rate is a
    proportion, a finite number in [[0, 1]], and the expected true
    positives of random targeting lie between 0 and the number of
    contacts. *)
Theorem labelled_base_rate_is_a_proportion :
  forall (host : Host) (parsed : list obj) (capacity : Z)
         (contactCost churnLoss saveRate : num),
    parsed <> [] ->
    BusinessTool.hasActual (BusinessTool.init parsed) = true ->
    let st := BusinessTool.init parsed in
    let N := clamped capacity (size (BusinessTool.rows st)) in
    let b := BusinessTool.randomStrategy st capacity contactCost churnLoss saveRate in
    exists rate : num,
      BusinessTool.baseRate st = Some rate /\
      in_unit rate /\
      (Fin 0 <=? BusinessTool.b_tpExp b)%num = true /\
      (BusinessTool.b_tpExp b <=? of_Z N)%num = true.
Proof.
  intros host parsed capacity contactCost churnLoss saveRate Hne Hlab st N b.
  pose proof (business_init_size_positive Hne) as Hn. fold st in Hn, Hlab.
  pose proof (business_init_baseRate parsed) as Hrate. cbv zeta in Hrate.
  fold st in Hrate. rewrite Hlab in Hrate.
  set (rows := BusinessTool.rows st) in *.
  assert (HP : (0 <= count churned rows <= size rows)%Z)
    by (split; [apply count_nonneg | apply count_le_size]).
  destruct (Qdiv_counts_unit HP Hn) as [H0 H1].
  assert (Hval : positive_rate rows
                 = Fin (Qred (inject_Z (count churned rows) / inject_Z (size rows)))).
  { unfold positive_rate. now apply ndiv_of_Z_pos. }
  exists (positive_rate rows). split; [exact Hrate|].
  assert (HN : (0 <= N <= size rows)%Z).
  { subst N. apply clamped_range, size_nonneg. }
  pose proof (inject_Z_nonneg (proj1 HN)) as HNq.
  split; [|split].
  - rewrite Hval. unfold in_unit. rewrite !nle_Fin, Qred_correct. now split.
  - subst b. unfold BusinessTool.randomStrategy. cbn [BusinessTool.b_tpExp].
    fold rows. fold (size rows). rewrite clamp_clamped by apply size_nonneg.
    fold N. rewrite Hrate, Hval. unfold of_Z, nmul.
    rewrite nle_Fin, !Qred_correct. now apply Qmult_le_0_compat.
  - subst b. unfold BusinessTool.randomStrategy. cbn [BusinessTool.b_tpExp].
    fold rows. fold (size rows). rewrite clamp_clamped by apply size_nonneg.
    fold N. rewrite Hrate, Hval. unfold of_Z, nmul.
    rewrite nle_Fin, !Qred_correct.
    rewrite <- (Qmult_1_r (inject_Z N)) at 2.
    now apply Qmult_le_l_nonneg.
Qed.

(** Witness of X11 on the scenario population. *)
Lemma labelled_base_rate_is_a_proportion_witness :
  ExampleHost.scenario <> [] /\
  BusinessTool.hasActual
    (BusinessTool.init (host := ExampleHost.host) ExampleHost.scenario) = true /\
  exists rate : num,
    BusinessTool.baseRate ExampleHost.labelled = Some rate /\ in_unit rate.
Proof.
  assert (H1 : ExampleHost.scenario <> []) by discriminate.
  split; [exact H1|]. split; [reflexivity|].
  destruct (@labelled_base_rate_is_a_proportion ExampleHost.host
              ExampleHost.scenario 2 (Fin 10) (Fin 100) (Fin (1 # 2)) H1 eq_refl)
    as (rate & Hr & Hu & _).
  exists rate. split; assumption.
Defined.

(* ===================================================================== *)
(** ** Counts and monotonicity *)
(* ===================================================================== *)

(** X13. On a labelled dataset the contacted customers split into true
    and false positives: the two counts are non-negative integers that
    add up to the number of contacts, the true positives never exceed the
    total positives, which never exceed the population, and the expected
    true positives of [profitFor] are the true positive count. *)
Theorem true_and_false_positives_partition_contacted :
  forall (st : BusinessTool.state) (capacity : Z)
         (contactCost churnLoss saveRate : num),
    BusinessTool.hasActual st = true ->
    let e := BusinessTool.profitFor st capacity contactCost churnLoss saveRate in
    let m := BusinessTool.computePrecisionRecall st (BusinessTool.contacted e) in
    let n := size (BusinessTool.rows st) in
    exists a b P : Z,
      BusinessTool.tp m = Some (of_Z a) /\
      BusinessTool.fp m = Some (of_Z b) /\
      BusinessTool.totalPos m = Some (of_Z P) /\
      BusinessTool.tpExp e = of_Z a /\
      (0 <= a <= P)%Z /\ (0 <= b)%Z /\
      (a + b = clamped capacity n)%Z /\ (P <= n)%Z.
Proof.
  intros st capacity contactCost churnLoss saveRate Hlab e m n.
  pose proof (business_contacted st capacity contactCost churnLoss saveRate) as Hsl.
  fold e in Hsl. fold n in Hsl.
  pose proof (clamped_range capacity (size_nonneg (BusinessTool.rows st))) as HN.
  fold n in HN.
  set (l := BusinessTool.contacted e) in *.
  exists (count churned l), (size l - count churned l)%Z,
         (count churned (BusinessTool.rows st)).
  subst m. rewrite (business_metrics _ _ Hlab).
  cbn [BusinessTool.tp BusinessTool.fp BusinessTool.totalPos].
  assert (Hsize : size l = clamped capacity n).
  { rewrite Hsl. now apply slice_to_length. }
  pose proof (count_nonneg churned l). pose proof (count_le_size churned l).
  pose proof (count_le_size churned (BusinessTool.rows st)).
  assert ((count churned l <= count churned (BusinessTool.rows st))%Z).
  { rewrite Hsl. apply count_firstn_le. }
  repeat split; try reflexivity; try lia.
  subst e l. cbn [BusinessTool.profitFor BusinessTool.tpExp BusinessTool.contacted].
  now apply business_tp_count.
Qed.

(** Witness of X13 on the labelled scenario. *)
Lemma true_and_false_positives_partition_contacted_witness :
  BusinessTool.hasActual ExampleHost.labelled = true /\
  exists a b P : Z,
    BusinessTool.tpExp
      (BusinessTool.profitFor ExampleHost.labelled 3
         (Fin 10) (Fin 100) (Fin (1 # 2))) = of_Z a /\
    (a + b = 3)%Z /\ (a <= P)%Z.
Proof.
  split; [reflexivity|].
  destruct (@true_and_false_positives_partition_contacted ExampleHost.labelled 3
              (Fin 10) (Fin 100) (Fin (1 # 2)) eq_refl)
    as (a & b & P & _ & _ & _ & Ha & Hle & _ & Hsum & _).
  exists a, b, P. split; [exact Ha|]. split; [exact Hsum | apply Hle].
Defined.

(** X14. Cost never decreases when the capacity grows or when the cost per
    contact grows (for a non-negative cost per contact), and on a labelled
    dataset the expected true positives never decrease when the capacity
    grows. *)
Theorem cost_and_true_positives_grow_with_capacity :
  forall (st : BusinessTool.state) (c1 c2 : Z) (cc cc' : Q)
         (churnLoss saveRate : num),
    (c1 <= c2)%Z -> (0 <= cc)%Q -> (cc <= cc')%Q ->
    let e1 := BusinessTool.profitFor st c1 (Fin cc) churnLoss saveRate in
    let e2 := BusinessTool.profitFor st c2 (Fin cc) churnLoss saveRate in
    let e1' := BusinessTool.profitFor st c1 (Fin cc') churnLoss saveRate in
    (BusinessTool.cost e1 <=? BusinessTool.cost e2)%num = true /\
    (BusinessTool.cost e1 <=? BusinessTool.cost e1')%num = true /\
    (BusinessTool.hasActual st = true ->
     (BusinessTool.tpExp e1 <=? BusinessTool.tpExp e2)%num = true).
Proof.
  intros st c1 c2 cc cc' churnLoss saveRate Hc H0 Hcc e1 e2 e1'.
  subst e1 e2 e1'.
  cbn [BusinessTool.profitFor BusinessTool.cost BusinessTool.tpExp].
  fold (size (BusinessTool.rows st)).
  set (n := size (BusinessTool.rows st)).
  pose proof (size_nonneg (BusinessTool.rows st)) as Hn. fold n in Hn.
  pose proof (clamp_mono n Hc) as Hm.
  pose proof (clamp_range c1 Hn) as H1.
  split; [|split].
  - unfold of_Z, nmul. rewrite nle_Fin, Qred_le.
    apply Qmult_le_compat_r; [|assumption]. now rewrite <- Zle_Qle.
  - unfold of_Z, nmul. rewrite nle_Fin, Qred_le.
    apply Qmult_le_l_nonneg; [|assumption]. now apply inject_Z_nonneg.
  - intros Hlab. rewrite !business_tp_count by assumption.
    unfold of_Z. rewrite nle_Fin, <- Zle_Qle.
    unfold slice_to. apply count_firstn_mono. lia.
Qed.

(** Witness of X14 on the labelled scenario, capacities 1 and 3. *)
Lemma cost_and_true_positives_grow_with_capacity_witness :
  (1 <= 3)%Z /\ (0 <= 10)%Q /\ (10 <= 20)%Q /\
  (BusinessTool.cost
     (BusinessTool.profitFor ExampleHost.labelled 1 (Fin 10) (Fin 100) (Fin (1 # 2)))
   <=? BusinessTool.cost
         (BusinessTool.profitFor ExampleHost.labelled 3
            (Fin 10) (Fin 100) (Fin (1 # 2))))%num = true.
Proof.
  assert (H1 : (1 <= 3)%Z) by lia.
  assert (H2 : (0 <= 10)%Q) by (vm_compute; discriminate).
  assert (H3 : (10 <= 20)%Q) by (vm_compute; discriminate).
  split; [exact H1|]. split; [exact H2|]. split; [exact H3|].
  exact (proj1 (@cost_and_true_positives_grow_with_capacity ExampleHost.labelled
                  1 3 10 20 (Fin 100) (Fin (1 # 2)) H1 H2 H3)).
Defined.

(* ===================================================================== *)
(** ** The sampling grid of the profit curve *)
(* ===================================================================== *)

Section Grid.

Variable st : BusinessTool.state.
Variables contactCost churnLoss saveRate : num.

Lemma curve_loop_unfold (n cap : Z) :
  BusinessTool.curve_loop st contactCost churnLoss saveRate n cap
  = if Z_le_gt_dec cap n
    then BusinessTool.mkPoint cap
           (BusinessTool.profit
              (BusinessTool.profitFor st cap contactCost churnLoss saveRate))
         :: BusinessTool.curve_loop st contactCost churnLoss saveRate n
              (cap + BusinessTool.curve_step n)
    else [].
Proof.
  funelim (BusinessTool.curve_loop st contactCost churnLoss saveRate n cap);
    match goal with E : Z_le_gt_dec _ _ = _ |- _ => now rewrite E end.
Qed.

Lemma curve_loop_grid (n : Z) (k : nat) :
  forall cap : Z,
    (cap <= n)%Z ->
    Z.to_nat ((n - cap) / BusinessTool.curve_step n) = k ->
    map BusinessTool.capacity
      (BusinessTool.curve_loop st contactCost churnLoss saveRate n cap)
    = map (fun i => (cap + Z.of_nat i * BusinessTool.curve_step n)%Z) (seq 0 (S k)).
Proof.
  pose proof (curve_step_positive n) as Hs.
  set (step := BusinessTool.curve_step n) in *.
  induction k as [|k IH]; intros cap Hcap Hk.
  - assert (Hsmall : (n - cap < step)%Z).
    { destruct (Z_lt_ge_dec (n - cap) step) as [H|H]; [assumption|].
      assert (1 <= (n - cap) / step)%Z by (apply Z.div_le_lower_bound; lia). lia. }
    rewrite curve_loop_unfold. destruct (Z_le_gt_dec cap n); [|lia].
    fold step. rewrite curve_loop_unfold.
    destruct (Z_le_gt_dec (cap + step) n); [lia|].
    cbn [map seq BusinessTool.capacity]. f_equal. lia.
  - assert (Hbig : (step <= n - cap)%Z).
    { destruct (Z_lt_ge_dec (n - cap) step) as [H|H]; [|lia].
      rewrite Z.div_small in Hk by lia. discriminate Hk. }
    assert (Hk' : Z.to_nat ((n - (cap + step)) / step) = k).
    { replace (n - (cap + step))%Z with ((n - cap) + (-1) * step)%Z by ring.
      rewrite Z.div_add by lia. lia. }
    rewrite curve_loop_unfold. destruct (Z_le_gt_dec cap n); [|lia].
    fold step. cbn [map BusinessTool.capacity].
    rewrite (IH (cap + step)%Z) by (assumption || lia).
    change (seq 0 (S (S k))) with (0%nat :: seq 1 (S k)).
    rewrite <- seq_shift, map_cons, map_map. f_equal; [lia|].
    apply map_ext. intros i. lia.
Qed.

Lemma last_capacity_map (pts : list BusinessTool.point) :
  BusinessTool.last_capacity pts
  = match rev (map BusinessTool.capacity pts) with
    | c :: _ => Some c
    | [] => None
    end.
Proof.
  unfold BusinessTool.last_capacity. rewrite <- map_rev.
  now destruct (rev pts).
Qed.

End Grid.

(** X15. The profit curve samples the capacities 0, step, 2 step, ... up
    to the population size [n], with [step = max(50, floor(n / 40))], and
    then [n] itself when [n] is not a multiple of the step; an empty
    population gives no point.  The curve therefore never has more than 42
    points. *)
Theorem profit_curve_grid :
  forall (st : BusinessTool.state) (contactCost churnLoss saveRate : num),
    let n := size (BusinessTool.rows st) in
    let step := BusinessTool.curve_step n in
    let grid := map (fun i => (Z.of_nat i * step)%Z)
                    (seq 0 (S (Z.to_nat (n / step)))) in
    let points := BusinessTool.computeProfitCurve st contactCost churnLoss saveRate in
    map BusinessTool.capacity points
    = (if (n =? 0)%Z then []
       else grid ++ (if (n mod step =? 0)%Z then [] else [n])) /\
    (List.length points <= 42)%nat.
Proof.
  intros st contactCost churnLoss saveRate n step grid points.
  pose proof (size_nonneg (BusinessTool.rows st)) as Hn. fold n in Hn.
  pose proof (curve_step_positive n) as Hs. fold step in Hs.
  assert (Hq0 : (0 <= n / step)%Z) by (apply Z.div_pos; lia).
  assert (Hgrid :
            map BusinessTool.capacity
              (BusinessTool.curve_loop st contactCost churnLoss saveRate n 0)
            = grid).
  { pose proof (@curve_loop_grid st contactCost churnLoss saveRate n
                  (Z.to_nat (n / step)) 0 Hn) as Hg.
    rewrite Z.sub_0_r in Hg. specialize (Hg eq_refl). fold step in Hg.
    rewrite Hg. unfold grid. apply map_ext. intros i. lia. }
  assert (Hrev : exists g, rev grid = (n / step * step)%Z :: g).
  { unfold grid. rewrite seq_S, map_app, rev_app_distr.
    cbn [map rev app Nat.add]. rewrite Z2Nat.id by assumption.
    eexists. reflexivity. }
  assert (Hlen : List.length grid = S (Z.to_nat (n / step))).
  { unfold grid. now rewrite length_map, length_seq. }
  clearbody grid. destruct Hrev as [g Hrev].
  assert (Hmod : ((n / step * step =? n) = (n mod step =? 0))%Z).
  { pose proof (Z.div_mod n step ltac:(lia)) as Hdm.
    destruct (n / step * step =? n)%Z eqn:E1, (n mod step =? 0)%Z eqn:E2;
      try reflexivity;
      rewrite ?Z.eqb_eq, ?Z.eqb_neq in *; lia. }
  assert (Hcaps :
            map BusinessTool.capacity points
            = (if (n =? 0)%Z then []
               else grid ++ (if (n mod step =? 0)%Z then [] else [n]))).
  { subst points. unfold BusinessTool.computeProfitCurve.
    fold (size (BusinessTool.rows st)). fold n.
    destruct (n =? 0)%Z eqn:E0; [reflexivity|].
    rewrite last_capacity_map, Hgrid, Hrev, Hmod.
    destruct (n mod step =? 0)%Z.
    - now rewrite Hgrid, app_nil_r.
    - rewrite map_app, Hgrid. reflexivity. }
  split; [exact Hcaps|].
  rewrite <- (length_map BusinessTool.capacity), Hcaps.
  destruct (n =? 0)%Z; [cbn; lia|].
  rewrite length_app, Hlen.
  assert (Hq : (n / step <= 40)%Z).
  { apply Z.lt_succ_r. apply Z.div_lt_upper_bound; [assumption|].
    subst step. unfold BusinessTool.curve_step in *.
    pose proof (Z.div_mod n 40 ltac:(lia)) as Hdm.
    pose proof (Z.mod_pos_bound n 40 ltac:(lia)). lia. }
  assert (Z.to_nat (n / step) <= 40)%nat by lia.
  destruct (n mod step =? 0)%Z; cbn [List.length]; lia.
Qed.

(* ===================================================================== *)
(** ** Files that are already ranked, and the marginal step *)
(* ===================================================================== *)

Section Fixed.
Context {host : Host}.

Lemma sort_fixed (l : list row) :
  Forall finite_row l -> StronglySorted risk_ge l -> sort by_risk_desc l = l.
Proof.
  intros HF HS. apply (ranking_unique HF (sort_ranking HF)).
  repeat split; [reflexivity | assumption].
Qed.

Lemma finite_difference_zero (x : num) :
  isFinite x = true -> (x - x)%num = Fin 0.
Proof.
  destruct x as [| | |q]; try discriminate. intros _.
  unfold nsub. change (Fin 0) with (Fin (Qred 0)). apply Fin_Qred_eq. ring.
Qed.

End Fixed.

(** X16. A file whose lines are already in descending order of risk is
    kept in file order by [init], and sorting the loaded rows again
    changes nothing, in both revisions. *)
Theorem ranked_file_is_kept :
  forall (host : Host) (parsed : list obj),
    StronglySorted risk_ge (map BusinessTool.normalize parsed) ->
    StronglySorted risk_ge (map DecisionTool.normalize parsed) ->
    let b := BusinessTool.rows (BusinessTool.init parsed) in
    let d := DecisionTool.rows (DecisionTool.init parsed) in
    b = map BusinessTool.normalize parsed /\
    d = map DecisionTool.normalize parsed /\
    sort by_risk_desc b = b /\
    sort by_risk_desc d = d.
Proof.
  intros host parsed Hb Hd b d.
  pose proof (business_rows0_finite parsed) as Fb.
  pose proof (decision_rows0_finite parsed) as Fd.
  assert (Eb : b = map BusinessTool.normalize parsed) by (apply sort_fixed; assumption).
  assert (Ed : d = map DecisionTool.normalize parsed) by (apply sort_fixed; assumption).
  split; [exact Eb|]. split; [exact Ed|].
  rewrite Eb, Ed. split; apply sort_fixed; assumption.
Qed.

(** Witness of X16: two lines in descending order, the second one twice. *)
Lemma ranked_file_is_kept_witness :
  let parsed :=
    [ExampleHost.customer "a" "0.9" "1"; ExampleHost.customer "b" "0.3" "0";
     ExampleHost.customer "c" "0.3" "1"] in
  StronglySorted risk_ge
    (map (BusinessTool.normalize (host := ExampleHost.host)) parsed) /\
  StronglySorted risk_ge
    (map (DecisionTool.normalize (host := ExampleHost.host)) parsed) /\
  map customer_id
    (BusinessTool.rows (BusinessTool.init (host := ExampleHost.host) parsed))
  = ["a"; "b"; "c"]%string.
Proof.
  intros parsed.
  assert (Hb : StronglySorted risk_ge
                 (map (BusinessTool.normalize (host := ExampleHost.host)) parsed))
    by (repeat constructor).
  assert (Hd : StronglySorted risk_ge
                 (map (DecisionTool.normalize (host := ExampleHost.host)) parsed))
    by (repeat constructor).
  split; [exact Hb|]. split; [exact Hd|].
  rewrite (proj1 (@ranked_file_is_kept ExampleHost.host parsed Hb Hd)).
  reflexivity.
Defined.

(** X17. The marginal comparison of [interpretationText] never looks past
    the population: its step is at least 200, the next evaluation contacts
    at least as many customers as the current one and at most one step
    more, and once the capacity has reached the population size the two
    evaluations coincide, so that the marginal profit is exactly 0
    whenever the current profit is a finite number. *)
Theorem marginal_step_stays_in_population :
  forall (st : BusinessTool.state) (topN : Z)
         (contactCost churnLoss saveRate : num),
    let here := Narrative.here st topN contactCost churnLoss saveRate in
    let next := Narrative.next st topN contactCost churnLoss saveRate in
    (200 <= Narrative.step st)%Z /\
    (size (BusinessTool.contacted here) <= size (BusinessTool.contacted next)
     <= size (BusinessTool.contacted here) + Narrative.step st)%Z /\
    ((size (BusinessTool.rows st) <= topN)%Z ->
     next = here /\
     (isFinite (BusinessTool.profit here) = true ->
      Narrative.delta st topN contactCost churnLoss saveRate = Fin 0)).
Proof.
  intros st topN contactCost churnLoss saveRate here next.
  assert (Hstep : (200 <= Narrative.step st)%Z) by (unfold Narrative.step; lia).
  pose proof (size_nonneg (BusinessTool.rows st)) as Hn.
  split; [exact Hstep|]. split.
  - subst here next. unfold Narrative.here, Narrative.next.
    rewrite !business_contacted.
    rewrite !slice_to_length
      by (apply clamped_range, size_nonneg).
    rewrite <- !clamp_clamped by assumption.
    fold (size (BusinessTool.rows st)). unfold clamp. lia.
  - intros Hfull.
    assert (Heq : next = here).
    { subst here next. unfold Narrative.here, Narrative.next, BusinessTool.profitFor.
      fold (size (BusinessTool.rows st)).
      replace (clamp (Z.min (size (BusinessTool.rows st)) (topN + Narrative.step st))
                     0 (size (BusinessTool.rows st)))
        with (clamp topN 0 (size (BusinessTool.rows st)))
        by (unfold clamp; lia).
      reflexivity. }
    split; [exact Heq|].
    intros Hfin. unfold Narrative.delta. fold here. fold next. rewrite Heq.
    now apply finite_difference_zero.
Qed.

(** Witness of X17: the scenario population at capacity 4. *)
Lemma marginal_step_stays_in_population_witness :
  (size (BusinessTool.rows ExampleHost.labelled) <= 4)%Z /\
  isFinite
    (BusinessTool.profit
       (Narrative.here ExampleHost.labelled 4 (Fin 10) (Fin 100) (Fin (1 # 2))))
  = true /\
  Narrative.delta ExampleHost.labelled 4 (Fin 10) (Fin 100) (Fin (1 # 2)) = Fin 0.
Proof.
  assert (H : (size (BusinessTool.rows ExampleHost.labelled) <= 4)%Z)
    by (vm_compute; discriminate).
  split; [exact H|]. split; [reflexivity|].
  exact (proj2 (proj2 (proj2 (@marginal_step_stays_in_population
                                ExampleHost.labelled 4
                                (Fin 10) (Fin 100) (Fin (1 # 2))))
                  H)
           eq_refl).
Defined.

(** X18. A label column whose cells are all empty is read differently by
    the two revisions: part_000 stores no label and treats the dataset as
    unlabelled, decision_tool.js stores the label 0 in every row and treats
    the dataset as labelled, with no positive at all. *)
Theorem empty_label_cells_split_the_revisions :
  forall (host : Host) (parsed : list obj),
    parsed <> [] ->
    Forall (fun o => get o "actual_churn" = Some EmptyString) parsed ->
    let bst := BusinessTool.init parsed in
    let dst := DecisionTool.init parsed in
    BusinessTool.hasActual bst = false /\
    Forall (fun r => actual_churn r = None) (BusinessTool.rows bst) /\
    DecisionTool.hasActual dst = true /\
    Forall (fun r => actual_churn r = Some (Fin 0)) (DecisionTool.rows dst) /\
    count churned (DecisionTool.rows dst) = 0%Z.
Proof.
  intros host parsed Hne Hempty bst dst.
  assert (Hb : Forall (fun r => actual_churn r = None)
                      (map BusinessTool.normalize parsed)).
  { apply Forall_forall. intros r Hr. apply in_map_iff in Hr.
    destruct Hr as (o & <- & Ho). rewrite Forall_forall in Hempty.
    cbn [BusinessTool.normalize actual_churn]. now rewrite (Hempty o Ho). }
  assert (Hd : Forall (fun r => actual_churn r = Some (Fin 0))
                      (map DecisionTool.normalize parsed)).
  { apply Forall_forall. intros r Hr. apply in_map_iff in Hr.
    destruct Hr as (o & <- & Ho). rewrite Forall_forall in Hempty.
    cbn [DecisionTool.normalize actual_churn]. rewrite (Hempty o Ho).
    unfold toNumber, Number. now rewrite StringToNumber_empty. }
  assert (Hd' : Forall (fun r => actual_churn r = Some (Fin 0))
                       (DecisionTool.rows dst))
    by exact (Permutation_Forall (sort_perm _) Hd).
  split; [|split; [|split; [|split]]].
  - subst bst. cbn [BusinessTool.init BusinessTool.hasActual].
    apply existsb_none. intros r Hr. rewrite Forall_forall in Hb.
    now rewrite (Hb r Hr).
  - exact (Permutation_Forall (sort_perm _) Hb).
  - subst dst. cbn [DecisionTool.init DecisionTool.hasActual].
    destruct parsed as [|o parsed]; [contradiction|].
    inversion Hd as [|? ? Ho _]; subst.
    cbn [map existsb]. now rewrite Ho.
  - exact Hd'.
  - unfold count. replace (filter churned (DecisionTool.rows dst)) with (@nil row).
    + reflexivity.
    + symmetry. induction Hd' as [|r l Hr _ IH]; [reflexivity|].
      cbn [filter]. unfold churned at 1. rewrite Hr. exact IH.
Qed.

(** Witness of X18: one customer with an empty label cell. *)
Lemma empty_label_cells_split_the_revisions_witness :
  let parsed := [ExampleHost.customer "a" "0.5" ""] in
  parsed <> [] /\
  Forall (fun o => get o "actual_churn" = Some EmptyString) parsed /\
  BusinessTool.hasActual (BusinessTool.init (host := ExampleHost.host) parsed)
  = false /\
  DecisionTool.hasActual (DecisionTool.init (host := ExampleHost.host) parsed)
  = true.
Proof.
  intros parsed.
  assert (H1 : parsed <> []) by discriminate.
  assert (H2 : Forall (fun o => get o "actual_churn" = Some EmptyString) parsed)
    by (repeat constructor).
  split; [exact H1|]. split; [exact H2|].
  destruct (@empty_label_cells_split_the_revisions ExampleHost.host parsed H1 H2)
    as (Hb & _ & Hd & _).
  split; assumption.
Defined.
